(** * The Twilio <-> OpenAI Realtime media relay of [main.py]

    A shallow embedding of [handle_media_stream] and of the closures it
    defines ([receive_from_twilio], [handle_speech_started_event],
    [send_mark], [send_to_twilio]), followed by the properties of the relay.

    Conventions of the embedding:
    - Python values that travel through [json.loads] / [json.dumps] are
      terms of [json]; Python's [None] is [JNull].  JSON numbers are
      restricted to integers (no floating point), and [int] of a string is
      Python's on ASCII text;
    - the end of a connection ends the [async for] loop that reads it, on
      both sides, without raising into the loop;
    - an exception is an outcome [Raise e]; the state reached when it was
      raised is kept, since assignments made before the [raise] persist;
    - the body of one iteration of each [async for] loop is run to
      completion before the other coroutine is scheduled;
    - [print] calls have no effect on the state and are left out. *)

From Stdlib Require Import ZArith List String Ascii Bool Lia.
From Stdlib Require Import Strings.Byte.
Import ListNotations.
Open Scope string_scope.
Open Scope list_scope.
Open Scope Z_scope.

(** ** Python values *)

Module Py.

#[warnings="-register-all"] Inductive json : Type :=
| JNull
| JBool (b : bool)
| JInt (n : Z)
| JStr (s : string)
| JList (l : list json)
| JDict (items : list (string * json)).

Inductive exn : Type :=
| JSONDecodeError
| AttributeError
| KeyError
| TypeError
| ValueError
| BinasciiError
| ConnectionClosed
| RuntimeError
| WebSocketDisconnect.

Inductive outcome (A : Type) : Type :=
| Return (a : A)
| Raise (e : exn).
Arguments Return {A} a.
Arguments Raise {A} e.

(** [d[k]] on the items of a dict, kept in insertion order with unique keys. *)
Fixpoint dict_lookup (k : string) (items : list (string * json)) : option json :=
  match items with
  | [] => None
  | (k', v) :: rest => if String.eqb k k' then Some v else dict_lookup k rest
  end.

(** [bool(v)] *)
Definition truthy (v : json) : bool :=
  match v with
  | JNull => false
  | JBool b => b
  | JInt n => negb (n =? 0)
  | JStr s => negb (String.eqb s "")
  | JList l => match l with [] => false | _ :: _ => true end
  | JDict items => match items with [] => false | _ :: _ => true end
  end.

(** [a == b]: [bool] is a subclass of [int], lists compare element-wise,
    dicts compare as key/value sets. *)
Fixpoint py_eq (a b : json) {struct a} : bool :=
  match a, b with
  | JNull, JNull => true
  | JBool x, JBool y => Bool.eqb x y
  | JBool x, JInt y => Z.b2z x =? y
  | JInt x, JBool y => x =? Z.b2z y
  | JInt x, JInt y => x =? y
  | JStr x, JStr y => String.eqb x y
  | JList xs, JList ys =>
      (fix all2 (xs ys : list json) {struct xs} : bool :=
         match xs, ys with
         | [], [] => true
         | x :: xs', y :: ys' => py_eq x y && all2 xs' ys'
         | _, _ => false
         end) xs ys
  | JDict xs, JDict ys =>
      (List.length xs =? List.length ys)%nat &&
      (fix sub (xs : list (string * json)) {struct xs} : bool :=
         match xs with
         | [] => true
         | (k, v) :: xs' =>
             match dict_lookup k ys with
             | Some w => py_eq v w
             | None => false
             end && sub xs'
         end) xs
  | _, _ => false
  end.

(** [v.get(k)]: only dicts have the method. *)
Definition get (v : json) (k : string) : outcome json :=
  match v with
  | JDict items =>
      Return (match dict_lookup k items with Some w => w | None => JNull end)
  | _ => Raise AttributeError
  end.

(** [v[k]] for a string key [k]. *)
Definition getitem (v : json) (k : string) : outcome json :=
  match v with
  | JDict items =>
      match dict_lookup k items with
      | Some w => Return w
      | None => Raise KeyError
      end
  | _ => Raise TypeError
  end.

(** [k in v] for a dict [v]; the relay only evaluates it after [v.get] has
    succeeded, that is on dicts. *)
Definition contains (k : string) (v : json) : outcome bool :=
  match v with
  | JDict items =>
      Return (match dict_lookup k items with Some _ => true | None => false end)
  | _ => Raise TypeError
  end.

(** *** [int(v)] *)

Definition code (c : ascii) : Z := Z.of_N (N_of_ascii c).

(** The white space that [int] skips at both ends of an ASCII string: tab,
    line feed, vertical tab, form feed, carriage return and the space.  The
    separators 28 to 31 are not skipped: [int] refuses a string that holds
    one. *)
Definition is_space (c : ascii) : bool :=
  ((9 <=? code c) && (code c <=? 13)) || (code c =? 32).

Fixpoint lstrip (l : list ascii) : list ascii :=
  match l with
  | [] => []
  | c :: rest => if is_space c then lstrip rest else l
  end.

Definition strip (l : list ascii) : list ascii :=
  rev (lstrip (rev (lstrip l))).

Definition digit_val (c : ascii) : option Z :=
  if (48 <=? code c) && (code c <=? 57) then Some (code c - 48) else None.

(** Decimal digits, with single underscores allowed between two digits. *)
Fixpoint parse_digits (acc : Z) (after_digit : bool) (l : list ascii) : option Z :=
  match l with
  | [] => if after_digit then Some acc else None
  | c :: rest =>
      match digit_val c with
      | Some d => parse_digits (10 * acc + d) true rest
      | None =>
          if Ascii.eqb c "_" && after_digit
          then parse_digits acc false rest
          else None
      end
  end.

Definition is_digit (c : ascii) : bool :=
  match digit_val c with
  | Some _ => true
  | None => false
  end.

(** [sys.int_info.default_max_str_digits]: [int] refuses a string with more
    digits, leading zeros counted, underscores and white space not. *)
Definition max_str_digits : Z := 4300.

(** [int(s)] for a string [s] of ASCII characters; [None] is [ValueError].
    On a string with a character above 127 Python consults the Unicode
    tables for further digits and white space; that is outside this
    definition, which refuses every such string, so statements about a
    conversion that fails are made for ASCII text ([is_ascii_text]). *)
Definition int_of_string (s : string) : option Z :=
  match strip (list_ascii_of_string s) with
  | c :: rest =>
      let digits := if Ascii.eqb c "-" || Ascii.eqb c "+" then rest else c :: rest in
      if max_str_digits <? Z.of_nat (List.length (filter is_digit digits))
      then None
      else if Ascii.eqb c "-" then option_map Z.opp (parse_digits 0 false rest)
      else if Ascii.eqb c "+" then parse_digits 0 false rest
      else parse_digits 0 false (c :: rest)
  | [] => None
  end.

(** The values on which [int] below is Python's [int]: everything but a
    string with a character above 127.  (A JSON number with a fraction or an
    exponent, which [json.loads] reads as a float, is not a [json] value of
    this development at all: [JInt] is the only number.) *)
Definition is_ascii_text (v : json) : bool :=
  match v with
  | JStr s => forallb (fun c => code c <? 128) (list_ascii_of_string s)
  | _ => true
  end.

Definition int (v : json) : outcome Z :=
  match v with
  | JInt n => Return n
  | JBool b => Return (Z.b2z b)
  | JStr s =>
      match int_of_string s with
      | Some n => Return n
      | None => Raise ValueError
      end
  | _ => Raise TypeError
  end.

End Py.
Import Py.

(** ** [base64.b64encode] and [base64.b64decode]

    The standard library's codec, as [binascii] implements it: the encoder
    maps three bytes to four characters and pads the last group; the decoder
    is the non-strict one that [b64decode] uses by default, a loop over the
    input with the position in the current quad ([quad_pos]), the bits left
    over from the previous character ([leftchar]) and the count of pad
    characters seen ([pads]). *)

Module Base64.

Definition byte_val (b : byte) : Z := Z.of_N (Byte.to_N b).

(** A store into an [unsigned char]. *)
Definition byte_of_Z (x : Z) : byte :=
  match Byte.of_N (Z.to_N (x mod 256)) with
  | Some b => b
  | None => x00
  end.

Definition BASE64_PAD : ascii := "="%char.

Definition table_b2a_base64 : list ascii :=
  list_ascii_of_string
    "ABCDEFGHIJKLMNOPQRSTUVWXYZabcdefghijklmnopqrstuvwxyz0123456789+/".

Definition b2a (i : Z) : ascii := nth (Z.to_nat i) table_b2a_base64 BASE64_PAD.

(** [table_a2b_base64]: the value of a character of the alphabet, [None]
    for every other character. *)
Definition table_a2b_base64 (c : ascii) : option Z :=
  let n := code c in
  if (65 <=? n) && (n <=? 90) then Some (n - 65)
  else if (97 <=? n) && (n <=? 122) then Some (n - 97 + 26)
  else if (48 <=? n) && (n <=? 57) then Some (n - 48 + 52)
  else if n =? 43 then Some 62
  else if n =? 47 then Some 63
  else None.

Fixpoint b2a_base64 (bin_data : list byte) : list ascii :=
  match bin_data with
  | [] => []
  | [x] =>
      let a := byte_val x in
      [b2a (Z.shiftr a 2); b2a (Z.shiftl (Z.land a 3) 4); BASE64_PAD; BASE64_PAD]
  | [x; y] =>
      let a := byte_val x in
      let b := byte_val y in
      [b2a (Z.shiftr a 2);
       b2a (Z.lor (Z.shiftl (Z.land a 3) 4) (Z.shiftr b 4));
       b2a (Z.shiftl (Z.land b 15) 2);
       BASE64_PAD]
  | x :: y :: z :: rest =>
      let a := byte_val x in
      let b := byte_val y in
      let c := byte_val z in
      b2a (Z.shiftr a 2)
      :: b2a (Z.lor (Z.shiftl (Z.land a 3) 4) (Z.shiftr b 4))
      :: b2a (Z.lor (Z.shiftl (Z.land b 15) 2) (Z.shiftr c 6))
      :: b2a (Z.land c 63)
      :: b2a_base64 rest
  end.

(** The decoding loop; [None] is [binascii.Error]. *)
Fixpoint a2b_base64_loop (ascii_data : list ascii) (quad_pos : Z)
    (leftchar : Z) (pads : Z) (bin_data : list byte) : option (list byte) :=
  match ascii_data with
  | [] => if quad_pos =? 0 then Some bin_data else None
  | this_ch :: rest =>
      if Ascii.eqb this_ch BASE64_PAD then
        if 2 <=? quad_pos then
          if 4 <=? quad_pos + (pads + 1) then Some bin_data
          else a2b_base64_loop rest quad_pos leftchar (pads + 1) bin_data
        else a2b_base64_loop rest quad_pos leftchar pads bin_data
      else
        match table_a2b_base64 this_ch with
        | None => a2b_base64_loop rest quad_pos leftchar pads bin_data
        | Some v =>
            if quad_pos =? 0 then
              a2b_base64_loop rest 1 v 0 bin_data
            else if quad_pos =? 1 then
              a2b_base64_loop rest 2 (Z.land v 15) 0
                (bin_data ++ [byte_of_Z (Z.lor (Z.shiftl leftchar 2) (Z.shiftr v 4))])
            else if quad_pos =? 2 then
              a2b_base64_loop rest 3 (Z.land v 3) 0
                (bin_data ++ [byte_of_Z (Z.lor (Z.shiftl leftchar 4) (Z.shiftr v 2))])
            else
              a2b_base64_loop rest 0 0 0
                (bin_data ++ [byte_of_Z (Z.lor (Z.shiftl leftchar 6) v)])
        end
  end.

Definition a2b_base64 (ascii_data : list ascii) : option (list byte) :=
  a2b_base64_loop ascii_data 0 0 0 [].

Definition is_ascii (c : ascii) : bool := code c <? 128.

(** [base64.b64encode(b).decode('utf-8')] *)
Definition b64encode (b : list byte) : string :=
  string_of_list_ascii (b2a_base64 b).

(** [base64.b64decode(v)] for a value [v] read from JSON: a [str] must be
    ASCII, anything that is not a [str] is a [TypeError]. *)
Definition b64decode (v : json) : outcome (list byte) :=
  match v with
  | JStr s =>
      let ascii_data := list_ascii_of_string s in
      if forallb is_ascii ascii_data then
        match a2b_base64 ascii_data with
        | Some bin_data => Return bin_data
        | None => Raise BinasciiError
        end
      else Raise ValueError
  | _ => Raise TypeError
  end.

End Base64.
Import Base64.

(** ** The state of one call

    The variables that [handle_media_stream] shares with its closures, the
    local frame of [receive_from_twilio], the state of the two connections
    and what has been sent on each. *)

(** The names that [receive_from_twilio] assigns without declaring them
    [nonlocal]: they live in its own frame; [None] is an unbound name. *)
Record locals : Type := mkLocals {
  nonlocal_vars : option json;
  local_response_start_timestamp_twilio : option json;
  local_last_assistant_item : option json
}.

Record session : Type := mkSession {
  stream_sid : json;
  latest_media_timestamp : Z;
  last_assistant_item : json;
  mark_queue : list string;
  response_start_timestamp_twilio : option Z;
  receive_from_twilio_locals : locals;
  (** [openai_ws.state.name == 'OPEN'] *)
  openai_ws_open : bool;
  (** the caller's [websocket] still accepts [send_json] *)
  websocket_open : bool;
  (** the values passed to [openai_ws.send(json.dumps(_))], oldest first *)
  openai_ws_sent : list json;
  (** the values passed to [websocket.send_json(_)], oldest first *)
  websocket_sent : list json
}.

Definition set_stream_sid (v : json) (s : session) : session :=
  mkSession v (latest_media_timestamp s) (last_assistant_item s) (mark_queue s)
    (response_start_timestamp_twilio s) (receive_from_twilio_locals s)
    (openai_ws_open s) (websocket_open s) (openai_ws_sent s) (websocket_sent s).

Definition set_latest_media_timestamp (t : Z) (s : session) : session :=
  mkSession (stream_sid s) t (last_assistant_item s) (mark_queue s)
    (response_start_timestamp_twilio s) (receive_from_twilio_locals s)
    (openai_ws_open s) (websocket_open s) (openai_ws_sent s) (websocket_sent s).

Definition set_last_assistant_item (v : json) (s : session) : session :=
  mkSession (stream_sid s) (latest_media_timestamp s) v (mark_queue s)
    (response_start_timestamp_twilio s) (receive_from_twilio_locals s)
    (openai_ws_open s) (websocket_open s) (openai_ws_sent s) (websocket_sent s).

Definition set_mark_queue (q : list string) (s : session) : session :=
  mkSession (stream_sid s) (latest_media_timestamp s) (last_assistant_item s) q
    (response_start_timestamp_twilio s) (receive_from_twilio_locals s)
    (openai_ws_open s) (websocket_open s) (openai_ws_sent s) (websocket_sent s).

Definition set_response_start_timestamp_twilio (t : option Z) (s : session) : session :=
  mkSession (stream_sid s) (latest_media_timestamp s) (last_assistant_item s)
    (mark_queue s) t (receive_from_twilio_locals s)
    (openai_ws_open s) (websocket_open s) (openai_ws_sent s) (websocket_sent s).

Definition set_receive_from_twilio_locals (l : locals) (s : session) : session :=
  mkSession (stream_sid s) (latest_media_timestamp s) (last_assistant_item s)
    (mark_queue s) (response_start_timestamp_twilio s) l
    (openai_ws_open s) (websocket_open s) (openai_ws_sent s) (websocket_sent s).

Definition set_openai_ws_open (b : bool) (s : session) : session :=
  mkSession (stream_sid s) (latest_media_timestamp s) (last_assistant_item s)
    (mark_queue s) (response_start_timestamp_twilio s) (receive_from_twilio_locals s)
    b (websocket_open s) (openai_ws_sent s) (websocket_sent s).

Definition set_websocket_open (b : bool) (s : session) : session :=
  mkSession (stream_sid s) (latest_media_timestamp s) (last_assistant_item s)
    (mark_queue s) (response_start_timestamp_twilio s) (receive_from_twilio_locals s)
    (openai_ws_open s) b (openai_ws_sent s) (websocket_sent s).

Definition set_openai_ws_sent (l : list json) (s : session) : session :=
  mkSession (stream_sid s) (latest_media_timestamp s) (last_assistant_item s)
    (mark_queue s) (response_start_timestamp_twilio s) (receive_from_twilio_locals s)
    (openai_ws_open s) (websocket_open s) l (websocket_sent s).

Definition set_websocket_sent (l : list json) (s : session) : session :=
  mkSession (stream_sid s) (latest_media_timestamp s) (last_assistant_item s)
    (mark_queue s) (response_start_timestamp_twilio s) (receive_from_twilio_locals s)
    (openai_ws_open s) (websocket_open s) (openai_ws_sent s) l.

(** ** Statements that read and write the state and may raise *)

Definition M (A : Type) : Type := session -> outcome A * session.

Definition ret {A : Type} (a : A) : M A := fun s => (Return a, s).

Definition bind {A B : Type} (c : M A) (k : A -> M B) : M B :=
  fun s =>
    match c s with
    | (Return a, s') => k a s'
    | (Raise e, s') => (Raise e, s')
    end.

Definition lift {A : Type} (r : outcome A) : M A := fun s => (r, s).

Definition gets {A : Type} (f : session -> A) : M A := fun s => (Return (f s), s).

Definition modify (f : session -> session) : M unit := fun s => (Return tt, f s).

Declare Scope relay_scope.
Delimit Scope relay_scope with relay.
Notation "x <- c ;; k" := (bind c (fun x => k))
  (at level 61, c at next level, right associativity) : relay_scope.
Notation "c ;; k" := (bind c (fun _ => k))
  (at level 61, right associativity) : relay_scope.
Open Scope relay_scope.

(** ** The two connections *)

(** A text frame as [json.loads] sees it: either it does not parse, or it
    parses to a value. *)
Inductive text : Type :=
| NotJson (raw : string)
| Json (v : json).

Definition json_loads (message : text) : outcome json :=
  match message with
  | NotJson _ => Raise JSONDecodeError
  | Json v => Return v
  end.

(** [await openai_ws.send(json.dumps(v))] *)
Definition openai_ws_send (v : json) : M unit :=
  fun s =>
    if openai_ws_open s
    then (Return tt, set_openai_ws_sent (openai_ws_sent s ++ [v]) s)
    else (Raise ConnectionClosed, s).

(** [await openai_ws.close()] *)
Definition openai_ws_close : M unit := modify (set_openai_ws_open false).

(** [await websocket.send_json(v)]: once the caller's connection has ended
    a send delivers nothing and raises; the only caller, [send_to_twilio],
    catches every [Exception] alike. *)
Definition websocket_send_json (v : json) : M unit :=
  fun s =>
    if websocket_open s
    then (Return tt, set_websocket_sent (websocket_sent s ++ [v]) s)
    else (Raise RuntimeError, s).

(** ** The messages the relay builds *)

Definition audio_append (payload : json) : json :=
  JDict [("type", JStr "input_audio_buffer.append"); ("audio", payload)].

Definition truncate_event (item_id : json) (elapsed_time : Z) : json :=
  JDict [("type", JStr "conversation.item.truncate");
         ("item_id", item_id);
         ("content_index", JInt 0);
         ("audio_end_ms", JInt elapsed_time)].

Definition clear_event (sid : json) : json :=
  JDict [("event", JStr "clear"); ("streamSid", sid)].

Definition mark_event (sid : json) : json :=
  JDict [("event", JStr "mark");
         ("streamSid", sid);
         ("mark", JDict [("name", JStr "responsePart")])].

Definition audio_delta (sid : json) (audio_payload : string) : json :=
  JDict [("event", JStr "media");
         ("streamSid", sid);
         ("media", JDict [("payload", JStr audio_payload)])].

(** ** The closures of [handle_media_stream] *)

(** One iteration of the [async for] loop of [receive_from_twilio]
    (main.py, lines 172-190): the three tests of [data.get('event')] in
    the order of the [if]/[elif] chain. *)
Definition receive_from_twilio_body (message : text) : M unit :=
  data <- lift (json_loads message) ;;
  event <- lift (get data "event") ;;
  is_open <- gets openai_ws_open ;;
  if py_eq event (JStr "media") && is_open then
    media <- lift (getitem data "media") ;;
    timestamp <- lift (getitem media "timestamp") ;;
    t <- lift (int timestamp) ;;
    modify (set_latest_media_timestamp t) ;;
    media <- lift (getitem data "media") ;;
    payload <- lift (getitem media "payload") ;;
    openai_ws_send (audio_append payload)
  else
    event <- lift (get data "event") ;;
    if py_eq event (JStr "start") then
      start <- lift (getitem data "start") ;;
      sid <- lift (getitem start "streamSid") ;;
      modify (set_stream_sid sid) ;;
      l <- gets receive_from_twilio_locals ;;
      modify (set_receive_from_twilio_locals
                (mkLocals (Some JNull) (local_response_start_timestamp_twilio l)
                   (local_last_assistant_item l))) ;;
      l <- gets receive_from_twilio_locals ;;
      modify (set_receive_from_twilio_locals
                (mkLocals (nonlocal_vars l) (Some JNull) (local_last_assistant_item l))) ;;
      modify (set_latest_media_timestamp 0) ;;
      l <- gets receive_from_twilio_locals ;;
      modify (set_receive_from_twilio_locals
                (mkLocals (nonlocal_vars l) (local_response_start_timestamp_twilio l)
                   (Some JNull)))
    else
      event <- lift (get data "event") ;;
      if py_eq event (JStr "mark") then
        q <- gets mark_queue ;;
        match q with
        | [] => ret tt
        | _ :: rest => modify (set_mark_queue rest)
        end
      else ret tt.

(** [handle_speech_started_event] (main.py, lines 198-226). *)
Definition handle_speech_started_event : M unit :=
  q <- gets mark_queue ;;
  start <- gets response_start_timestamp_twilio ;;
  match q, start with
  | _ :: _, Some t0 =>
      latest <- gets latest_media_timestamp ;;
      let elapsed_time := latest - t0 in
      item <- gets last_assistant_item ;;
      (if truthy item
       then openai_ws_send (truncate_event item elapsed_time)
       else ret tt) ;;
      sid <- gets stream_sid ;;
      websocket_send_json (clear_event sid) ;;
      modify (set_mark_queue []) ;;
      modify (set_last_assistant_item JNull) ;;
      modify (set_response_start_timestamp_twilio None)
  | _, _ => ret tt
  end.

(** [send_mark(websocket, stream_sid)] (main.py, lines 228-236). *)
Definition send_mark (sid : json) : M unit :=
  if truthy sid then
    websocket_send_json (mark_event sid) ;;
    q <- gets mark_queue ;;
    modify (set_mark_queue (q ++ ["responsePart"]))
  else ret tt.

(** One iteration of the [async for] loop of [send_to_twilio] (main.py,
    lines 242-270).  The first [response.get('type')] is the test against
    [LOG_EVENT_TYPES], whose branch only prints. *)
Definition send_to_twilio_body (openai_message : text) : M unit :=
  response <- lift (json_loads openai_message) ;;
  _ <- lift (get response "type") ;;
  type <- lift (get response "type") ;;
  has_delta <- (if py_eq type (JStr "response.output_audio.delta")
                then lift (contains "delta" response)
                else ret false) ;;
  (if has_delta then
     delta <- lift (getitem response "delta") ;;
     decoded <- lift (b64decode delta) ;;
     let audio_payload := b64encode decoded in
     sid <- gets stream_sid ;;
     websocket_send_json (audio_delta sid audio_payload) ;;
     item <- lift (get response "item_id") ;;
     fresh <- (if truthy item then
                 item <- lift (getitem response "item_id") ;;
                 last <- gets last_assistant_item ;;
                 ret (negb (py_eq item last))
               else ret false) ;;
     (if fresh then
        latest <- gets latest_media_timestamp ;;
        modify (set_response_start_timestamp_twilio (Some latest)) ;;
        item <- lift (getitem response "item_id") ;;
        modify (set_last_assistant_item item)
      else ret tt) ;;
     sid <- gets stream_sid ;;
     send_mark sid
   else ret tt) ;;
  type <- lift (get response "type") ;;
  if py_eq type (JStr "input_audio_buffer.speech_started") then
    item <- gets last_assistant_item ;;
    if truthy item then handle_speech_started_event else ret tt
  else ret tt.

(** ** The two pumps

    What an [async for] loop obtains when it asks its connection for the
    next message: a text frame, the end of the connection, or a transport
    error.  The end of the connection ends the iteration on both sides:
    [websocket.iter_text()] catches the [WebSocketDisconnect] that
    [receive_text] raises and returns, so the loop of [receive_from_twilio]
    finishes without entering an [except] clause, as the loop over
    [openai_ws] does.  A transport error is raised into the loop as an
    ordinary exception.  In both cases the connection is closed from then
    on. *)
Inductive stream_item : Type :=
| Message (m : text)
| Disconnect
| Failure.

Inductive status : Type :=
| Running
| Done.

(** The [except] clauses of [receive_from_twilio] (main.py, lines 191-196),
    entered with an exception that the loop body raised. *)
Definition receive_from_twilio_except (e : exn) : M unit :=
  match e with
  | WebSocketDisconnect =>
      is_open <- gets openai_ws_open ;;
      if is_open then openai_ws_close else ret tt
  | _ => ret tt
  end.

Definition receive_from_twilio_next (item : stream_item) (s : session)
  : status * session :=
  match item with
  | Message m =>
      match receive_from_twilio_body m s with
      | (Return _, s') => (Running, s')
      | (Raise e, s') => (Done, snd (receive_from_twilio_except e s'))
      end
  | Disconnect => (Done, set_websocket_open false s)
  | Failure =>
      (Done, snd (receive_from_twilio_except RuntimeError
                    (set_websocket_open false s)))
  end.

(** [send_to_twilio] has a single clause, [except Exception], that prints
    (main.py, lines 271-272). *)
Definition send_to_twilio_next (item : stream_item) (s : session)
  : status * session :=
  match item with
  | Message m =>
      match send_to_twilio_body m s with
      | (Return _, s') => (Running, s')
      | (Raise _, s') => (Done, s')
      end
  | Disconnect => (Done, set_openai_ws_open false s)
  | Failure => (Done, set_openai_ws_open false s)
  end.

(** A pump run alone on what its connection delivers; [Running] when it
    is waiting for more. *)
Fixpoint receive_from_twilio (items : list stream_item) (s : session)
  : status * session :=
  match items with
  | [] => (Running, s)
  | item :: rest =>
      match receive_from_twilio_next item s with
      | (Running, s') => receive_from_twilio rest s'
      | (Done, s') => (Done, s')
      end
  end.

Fixpoint send_to_twilio (items : list stream_item) (s : session)
  : status * session :=
  match items with
  | [] => (Running, s)
  | item :: rest =>
      match send_to_twilio_next item s with
      | (Running, s') => send_to_twilio rest s'
      | (Done, s') => (Done, s')
      end
  end.

(** ** [handle_media_stream]: [asyncio.gather] of the two pumps *)

Inductive event : Type :=
| Twilio (item : stream_item)
| OpenAI (item : stream_item).

Record call : Type := mkCall {
  vars : session;
  receive_from_twilio_status : status;
  send_to_twilio_status : status
}.

(** A pump that has returned no longer reads its connection. *)
Definition gather_step (c : call) (ev : event) : call :=
  match ev with
  | Twilio item =>
      match receive_from_twilio_status c with
      | Running =>
          let (st, s') := receive_from_twilio_next item (vars c) in
          mkCall s' st (send_to_twilio_status c)
      | Done => c
      end
  | OpenAI item =>
      match send_to_twilio_status c with
      | Running =>
          let (st, s') := send_to_twilio_next item (vars c) in
          mkCall s' (receive_from_twilio_status c) st
      | Done => c
      end
  end.

Definition gather (evs : list event) (c : call) : call :=
  fold_left gather_step evs c.

(** [initialize_session]: the [session.update] command; [VOICE] is
    ["verse"], the instructions are the module's [SYSTEM_MESSAGE]. *)
Definition session_update (SYSTEM_MESSAGE : string) : json :=
  JDict [("type", JStr "session.update");
         ("session",
          JDict [("type", JStr "realtime");
                 ("model", JStr "gpt-realtime");
                 ("output_modalities", JList [JStr "audio"]);
                 ("audio",
                  JDict [("input",
                          JDict [("format", JDict [("type", JStr "audio/pcmu")]);
                                 ("turn_detection", JDict [("type", JStr "server_vad")])]);
                         ("output",
                          JDict [("format", JDict [("type", JStr "audio/pcmu")]);
                                 ("voice", JStr "verse")])]);
                 ("instructions", JStr SYSTEM_MESSAGE)])].

(** The connection specific state, once the caller's socket is accepted,
    the model's socket is connected and the session is initialised. *)
Definition initial_session (SYSTEM_MESSAGE : string) : session :=
  {| stream_sid := JNull;
     latest_media_timestamp := 0;
     last_assistant_item := JNull;
     mark_queue := [];
     response_start_timestamp_twilio := None;
     receive_from_twilio_locals := mkLocals None None None;
     openai_ws_open := true;
     websocket_open := true;
     openai_ws_sent := [session_update SYSTEM_MESSAGE];
     websocket_sent := [] |}.

(** The handler up to some point of the call; leaving the [async with]
    block, once both pumps have returned, closes the model's socket. *)
Definition handle_media_stream (SYSTEM_MESSAGE : string) (evs : list event) : call :=
  let c := gather evs (mkCall (initial_session SYSTEM_MESSAGE) Running Running) in
  match receive_from_twilio_status c, send_to_twilio_status c with
  | Done, Done =>
      mkCall (set_openai_ws_open false (vars c)) Done Done
  | _, _ => c
  end.

(** ** Sample messages and states

    The wire messages of the two protocols, as they are used on concrete
    inputs below. *)

(** [{event: "media", media: {timestamp, payload}}] from the caller. *)
Definition media_frame (timestamp payload : string) : json :=
  JDict [("event", JStr "media");
         ("media", JDict [("timestamp", JStr timestamp); ("payload", JStr payload)])].

(** [{event: "start", start: {streamSid}}] from the caller. *)
Definition start_frame (sid : string) : json :=
  JDict [("event", JStr "start"); ("start", JDict [("streamSid", JStr sid)])].

(** [{type: "response.output_audio.delta", item_id, delta}] from the model. *)
Definition output_audio_delta (item_id delta : string) : json :=
  JDict [("type", JStr "response.output_audio.delta");
         ("item_id", JStr item_id);
         ("delta", JStr delta)].

(** [{type: "input_audio_buffer.speech_started"}] from the model. *)
Definition speech_started : json :=
  JDict [("type", JStr "input_audio_buffer.speech_started")].

(** A call in which the stream has started, utterance [item] is being
    played since caller clock [t0], the caller clock is at [t1] and [marks]
    chunks are not acknowledged yet. *)
Definition playing (item : json) (t0 t1 : Z) (marks : list string) : session :=
  {| stream_sid := JStr "MZ18";
     latest_media_timestamp := t1;
     last_assistant_item := item;
     mark_queue := marks;
     response_start_timestamp_twilio := Some t0;
     receive_from_twilio_locals := mkLocals None None None;
     openai_ws_open := true;
     websocket_open := true;
     openai_ws_sent := [];
     websocket_sent := [] |}.

(** ** Vocabulary of the statements *)

(** The state in which the audio-delta branch of [send_to_twilio] leaves
    the call when nothing raises, for a delta that decodes to [decoded] and
    carries [item] under "item_id" ([JNull] when the key is absent). *)
Definition after_audio_delta (item : json) (decoded : list byte) (s : session) : session :=
  let fresh := truthy item && negb (py_eq item (last_assistant_item s)) in
  let sid := stream_sid s in
  {| stream_sid := sid;
     latest_media_timestamp := latest_media_timestamp s;
     last_assistant_item := if fresh then item else last_assistant_item s;
     mark_queue :=
       if truthy sid then mark_queue s ++ ["responsePart"] else mark_queue s;
     response_start_timestamp_twilio :=
       if fresh then Some (latest_media_timestamp s)
       else response_start_timestamp_twilio s;
     receive_from_twilio_locals := receive_from_twilio_locals s;
     openai_ws_open := openai_ws_open s;
     websocket_open := websocket_open s;
     openai_ws_sent := openai_ws_sent s;
     websocket_sent :=
       websocket_sent s
       ++ audio_delta sid (b64encode decoded)
          :: (if truthy sid then [mark_event sid] else []) |}.


(** The bytes of "Hello", whose base64 encoding is "SGVsbG8=". *)
Definition hello : list byte := [x48; x65; x6c; x6c; x6f].

(** A statement [c] keeps the component [f] of the state: it leaves it as
    it found it, whether it returns or raises. *)
Definition keeps {X A : Type} (f : session -> X) (c : M A) : Prop :=
  forall s, f (snd (c s)) = f s.

(** A canonical base64 string: what the encoder produces for some bytes. *)
Definition canonical_base64 (d : string) : Prop :=
  exists b : list byte, d = b64encode b.

(** A model event that the audio-delta branch forwards: its type is
    response.output_audio.delta and its delta decodes to [decoded]. *)
Definition is_audio_delta (response : json) (decoded : list byte) : Prop :=
  get response "type" = Return (JStr "response.output_audio.delta") /\
  exists delta, getitem response "delta" = Return delta /\
                b64decode delta = Return decoded.

(** The integers [0 .. n-1]. *)
Definition range (n : nat) : list Z := map Z.of_nat (seq 0 n).

(** Every exception that the statement [c] can raise satisfies [P]. *)
Definition raises_only {A : Type} (P : exn -> Prop) (c : M A) : Prop :=
  forall s e s', c s = (Raise e, s') -> P e.

(** A current utterance always has a start timestamp. *)
Definition utterance_has_start (s : session) : Prop :=
  truthy (last_assistant_item s) = true ->
  response_start_timestamp_twilio s <> None.

(** ** Loading the API key

    The module-level code of main.py, lines 14-44, run when the module is
    imported.  [streamlit] is what the first [try] block obtains:
    [Some v] when [import streamlit] and [st.secrets.get("OPENAI_API_KEY")]
    both succeed and the lookup returns [v] ([JNull] for an absent secret),
    [None] when either raises.  [dotenv] is what the second [try] block
    obtains: [Some v] when [from dotenv import load_dotenv] and
    [load_dotenv()] succeed and [os.getenv("OPENAI_API_KEY")] returns [v],
    [None] when they raise.  The result is the pair of [OPENAI_API_KEY] and
    [_OPENAI_KEY_SOURCE], or the [ValueError] of line 41. *)

(** [os.getenv] returns a [str] or [None]. *)
Definition of_getenv (v : option string) : json :=
  match v with
  | Some k => JStr k
  | None => JNull
  end.

Definition load_openai_api_key (streamlit : option json)
    (dotenv : option (option string)) : outcome (json * json) :=
  let key0 := JNull in
  let source0 := JNull in
  let '(key1, source1) :=
    match streamlit with
    | Some v => (v, if truthy v then JStr "streamlit" else source0)
    | None => (key0, source0)
    end in
  let '(key2, source2) :=
    if negb (truthy key1) then
      match dotenv with
      | Some v =>
          (of_getenv v, if truthy (of_getenv v) then JStr "env" else source1)
      | None => (key1, source1)
      end
    else (key1, source1) in
  if negb (truthy key2) then Raise ValueError else Return (key2, source2).

(** ** Vocabulary of the further statements *)

(** What the statement [c] appends to the log [log] (one of the two
    sent-message logs) satisfies [P], and [c] removes nothing from it. *)
Definition emits {A : Type} (log : session -> list json) (P : json -> Prop)
    (c : M A) : Prop :=
  forall s, exists added, log (snd (c s)) = log s ++ added /\ Forall P added.

(** The two commands that the pumps send to the model. *)
Definition is_audio_append (v : json) : Prop :=
  exists payload, v = audio_append payload.

Definition is_truncate (v : json) : Prop :=
  exists item elapsed_time, v = truncate_event item elapsed_time.

(** The three frames that the relay sends to the caller. *)
Definition is_caller_frame (v : json) : Prop :=
  (exists sid payload, v = audio_delta sid payload) \/
  (exists sid, v = mark_event sid) \/
  (exists sid, v = clear_event sid).

(** A well-formed caller media frame, with the integer [t] that its
    timestamp converts to and its payload: the timestamp is an integer, or
    a string of ASCII decimal digits that [int] accepts. *)
Definition is_media_frame (data : json) (t : Z) (payload : json) : Prop :=
  get data "event" = Return (JStr "media") /\
  exists media timestamp,
    getitem data "media" = Return media /\
    getitem media "timestamp" = Return timestamp /\
    int timestamp = Return t /\
    getitem media "payload" = Return payload.

(** The start timestamp of the current utterance is not ahead of the
    caller clock. *)
Definition start_not_after_clock (s : session) : Prop :=
  forall t0, response_start_timestamp_twilio s = Some t0 ->
             t0 <= latest_media_timestamp s.

(** No truncate command in the log [l] has a negative audio_end_ms. *)
Definition truncations_nonneg (l : list json) : Prop :=
  forall item t, In (truncate_event item t) l -> 0 <= t.

(** Along the events [evs], handled from the call [c], the caller clock
    [latest_media_timestamp] never goes back. *)
Fixpoint clock_monotone (evs : list event) (c : call) : Prop :=
  match evs with
  | [] => True
  | ev :: rest =>
      latest_media_timestamp (vars c)
      <= latest_media_timestamp (vars (gather_step c ev)) /\
      clock_monotone rest (gather_step c ev)
  end.

(** A start timestamp always belongs to a current utterance. *)
Definition start_has_utterance (s : session) : Prop :=
  response_start_timestamp_twilio s <> None ->
  truthy (last_assistant_item s) = true.

(** The expressions that [receive_from_twilio] evaluates on a caller
    event: [int(data['media']['timestamp'])], [data['media']['payload']] and
    [data['start']['streamSid']]. *)
Definition media_timestamp (data : json) : outcome Z :=
  match getitem data "media" with
  | Return media =>
      match getitem media "timestamp" with
      | Return timestamp => int timestamp
      | Raise e => Raise e
      end
  | Raise e => Raise e
  end.

Definition media_payload (data : json) : outcome json :=
  match getitem data "media" with
  | Return media => getitem media "payload"
  | Raise e => Raise e
  end.

Definition start_stream_sid (data : json) : outcome json :=
  match getitem data "start" with
  | Return start => getitem start "streamSid"
  | Raise e => Raise e
  end.

(** The caller media frames of a list, as messages, with their timestamps
    and payloads. *)
Definition frame_message (f : json * Z * json) : stream_item :=
  Message (Json (fst (fst f))).

Definition frame_timestamp (f : json * Z * json) : Z := snd (fst f).

Definition frame_payload (f : json * Z * json) : json := snd f.

(** A frame sent to the caller that is a mark request. *)
Definition is_mark_frame (v : json) : bool :=
  match get v "event" with
  | Return event => py_eq event (JStr "mark")
  | Raise _ => false
  end.

(** Every pending mark is the name 'responsePart', and there are no more
    pending marks than mark requests sent to the caller. *)
Definition marks_accounted (s : session) : Prop :=
  Forall (fun name => name = "responsePart") (mark_queue s) /\
  (List.length (mark_queue s)
   <= List.length (filter is_mark_frame (websocket_sent s)))%nat.

(** The call has wound down: the model's socket is closed, and the caller's
    socket is closed or the outbound pump has returned. *)
Definition wound_down (c : call) : Prop :=
  openai_ws_open (vars c) = false /\
  (websocket_open (vars c) = false \/ send_to_twilio_status c = Done).

(** The timestamp of a caller media event, when it has one, is ASCII text
    or no text at all: the events on which a failing [int] is Python's. *)
Definition media_timestamp_ascii (data : json) : bool :=
  match getitem data "media" with
  | Return media =>
      match getitem media "timestamp" with
      | Return timestamp => is_ascii_text timestamp
      | Raise _ => true
      end
  | Raise _ => true
  end.

(** The caller has hung up on a call whose logs were [to_caller] and
    [to_model] at that time: the caller's socket is closed and the inbound
    pump has returned; nothing has been sent to the caller since, and the
    model has been sent nothing, or one truncate command by an outbound pump
    that has then returned. *)
Definition hung_up (to_caller to_model : list json) (c : call) : Prop :=
  websocket_open (vars c) = false /\
  receive_from_twilio_status c = Done /\
  websocket_sent (vars c) = to_caller /\
  (openai_ws_sent (vars c) = to_model \/
   (send_to_twilio_status c = Done /\
    exists (item : json) (elapsed_time : Z),
      openai_ws_sent (vars c) = to_model ++ [truncate_event item elapsed_time])).

(** * Properties of the relay *)

(** ** Running the statements *)

Lemma bind_Return {A B : Type} (c : M A) (k : A -> M B) (s s' : session) (a : A) :
  c s = (Return a, s') -> bind c k s = k a s'.
Proof. intros H. unfold bind. rewrite H. reflexivity. Qed.

Lemma bind_Raise {A B : Type} (c : M A) (k : A -> M B) (s s' : session) (e : exn) :
  c s = (Raise e, s') -> bind c k s = (Raise e, s').
Proof. intros H. unfold bind. rewrite H. reflexivity. Qed.

Lemma bind_lift_Return {A B : Type} (r : outcome A) (k : A -> M B) (s : session) (a : A) :
  r = Return a -> bind (lift r) k s = k a s.
Proof. intros ->. reflexivity. Qed.

Lemma bind_gets {A B : Type} (f : session -> A) (k : A -> M B) (s : session) :
  bind (gets f) k s = k (f s) s.
Proof. reflexivity. Qed.

Lemma bind_modify {B : Type} (f : session -> session) (k : unit -> M B) (s : session) :
  bind (modify f) k s = k tt (f s).
Proof. reflexivity. Qed.

Ltac run_lift H := rewrite (bind_lift_Return _ _ _ _ H).
Ltac run_state := repeat first [rewrite bind_gets | rewrite bind_modify].
Ltac run_tests := cbn [py_eq String.eqb Ascii.eqb Bool.eqb andb negb].

Create HintDb setters.
#[local] Hint Unfold modify set_stream_sid set_latest_media_timestamp
  set_last_assistant_item set_mark_queue set_response_start_timestamp_twilio
  set_receive_from_twilio_locals set_openai_ws_open set_websocket_open
  set_openai_ws_sent set_websocket_sent : setters.

Ltac run_setters :=
  autounfold with setters;
  cbn [stream_sid latest_media_timestamp last_assistant_item mark_queue
       response_start_timestamp_twilio receive_from_twilio_locals
       openai_ws_open websocket_open openai_ws_sent websocket_sent fst snd].

(** A value equal to a [str] literal is that [str]. *)
Lemma py_eq_JStr (v : json) (lit : string) :
  py_eq v (JStr lit) = true <-> v = JStr lit.
Proof.
  split.
  - destruct v; simpl; try discriminate.
    intros H. apply String.eqb_eq in H. now subst.
  - intros ->. simpl. apply String.eqb_refl.
Qed.

Lemma py_eq_JStr_left (lit : string) (v : json) :
  py_eq (JStr lit) v = true <-> v = JStr lit.
Proof.
  split.
  - destruct v; simpl; try discriminate.
    intros H. apply String.eqb_eq in H. now subst.
  - intros ->. simpl. apply String.eqb_refl.
Qed.

(** ** The inbound pump *)

(** C8: a caller 'mark' event received with an empty mark queue is a no-op
    that raises nothing and leaves the whole state, hence the empty queue,
    as it was; with a non-empty queue it removes the oldest pending mark,
    the head of the queue, and nothing else. *)
Theorem mark_event_acknowledge (data : json) (s : session) :
  get data "event" = Return (JStr "mark") ->
  (mark_queue s = [] ->
   receive_from_twilio_body (Json data) s = (Return tt, s)) /\
  (forall oldest pending,
     mark_queue s = oldest :: pending ->
     receive_from_twilio_body (Json data) s = (Return tt, set_mark_queue pending s)).
Proof.
  intros Hev.
  assert (Hbody : receive_from_twilio_body (Json data) s =
                  match mark_queue s with
                  | [] => (Return tt, s)
                  | _ :: rest => (Return tt, set_mark_queue rest s)
                  end).
  { unfold receive_from_twilio_body. simpl json_loads.
    rewrite (bind_lift_Return _ _ _ data eq_refl).
    rewrite (bind_lift_Return _ _ _ _ Hev), bind_gets.
    cbn [py_eq String.eqb Ascii.eqb Bool.eqb andb].
    rewrite (bind_lift_Return _ _ _ _ Hev).
    cbn [py_eq String.eqb Ascii.eqb Bool.eqb andb].
    rewrite (bind_lift_Return _ _ _ _ Hev).
    cbn [py_eq String.eqb Ascii.eqb Bool.eqb andb].
    rewrite bind_gets. destruct (mark_queue s); reflexivity. }
  split.
  - intros Hq. rewrite Hbody, Hq. reflexivity.
  - intros oldest pending Hq. rewrite Hbody, Hq. reflexivity.
Qed.

Lemma mark_event_acknowledge_witness :
  let data := JDict [("event", JStr "mark")] in
  let s := set_mark_queue ["responsePart"; "responsePart"] (initial_session "") in
  receive_from_twilio_body (Json data) (initial_session "")
    = (Return tt, initial_session "") /\
  receive_from_twilio_body (Json data) s
    = (Return tt, set_mark_queue ["responsePart"] s).
Proof.
  split.
  - apply (proj1 (mark_event_acknowledge (JDict [("event", JStr "mark")])
                    (initial_session "") eq_refl)).
    reflexivity.
  - apply (proj2 (mark_event_acknowledge (JDict [("event", JStr "mark")])
                    (set_mark_queue ["responsePart"; "responsePart"] (initial_session ""))
                    eq_refl) "responsePart" ["responsePart"]).
    reflexivity.
Defined.

(** C9: a caller 'start' event leaves the shared [last_assistant_item],
    [response_start_timestamp_twilio] and mark queue as they were, whatever
    the event carries; when it carries a stream id, the event binds
    [stream_sid] to it and resets [latest_media_timestamp] to 0, and the two
    assignments of [None] to the undeclared names land in the frame of
    [receive_from_twilio]: nothing else of the state changes. *)
Theorem start_event_keeps_utterance (data : json) (s : session) :
  get data "event" = Return (JStr "start") ->
  let r := receive_from_twilio_body (Json data) s in
  last_assistant_item (snd r) = last_assistant_item s /\
  response_start_timestamp_twilio (snd r) = response_start_timestamp_twilio s /\
  mark_queue (snd r) = mark_queue s /\
  (forall start sid,
     getitem data "start" = Return start ->
     getitem start "streamSid" = Return sid ->
     r = (Return tt,
          {| stream_sid := sid;
             latest_media_timestamp := 0;
             last_assistant_item := last_assistant_item s;
             mark_queue := mark_queue s;
             response_start_timestamp_twilio := response_start_timestamp_twilio s;
             receive_from_twilio_locals :=
               mkLocals (Some JNull) (Some JNull) (Some JNull);
             openai_ws_open := openai_ws_open s;
             websocket_open := websocket_open s;
             openai_ws_sent := openai_ws_sent s;
             websocket_sent := websocket_sent s |})).
Proof.
  intros Hev r. subst r.
  unfold receive_from_twilio_body. simpl json_loads.
  run_lift (eq_refl (Return data)). run_lift Hev. run_state. run_tests.
  run_lift Hev. run_tests.
  destruct (getitem data "start") as [start|e] eqn:Hstart.
  - run_lift (eq_refl (Return start)).
    destruct (getitem start "streamSid") as [sid|e] eqn:Hsid.
    + run_lift (eq_refl (Return sid)). run_state. cbn.
      repeat split.
      intros start' sid' Hs Hi. injection Hs as <-.
      rewrite Hsid in Hi. injection Hi as <-. reflexivity.
    + cbn. repeat split.
      intros start' sid' Hs Hi. injection Hs as <-.
      rewrite Hsid in Hi. discriminate.
  - cbn. repeat split. intros start' sid' Hs. discriminate.
Qed.

Lemma start_event_keeps_utterance_witness :
  let data := JDict [("event", JStr "start"); ("start", JDict [("streamSid", JStr "MZ18")])] in
  let s := set_last_assistant_item (JStr "a1")
             (set_response_start_timestamp_twilio (Some 1000)
                (set_latest_media_timestamp 1350
                   (set_mark_queue ["responsePart"] (initial_session "")))) in
  let r := receive_from_twilio_body (Json data) s in
  last_assistant_item (snd r) = JStr "a1" /\
  response_start_timestamp_twilio (snd r) = Some 1000 /\
  mark_queue (snd r) = ["responsePart"] /\
  stream_sid (snd r) = JStr "MZ18" /\
  latest_media_timestamp (snd r) = 0.
Proof.
  pose proof (start_event_keeps_utterance
    (JDict [("event", JStr "start"); ("start", JDict [("streamSid", JStr "MZ18")])])
    (set_last_assistant_item (JStr "a1")
       (set_response_start_timestamp_twilio (Some 1000)
          (set_latest_media_timestamp 1350
             (set_mark_queue ["responsePart"] (initial_session "")))))
    eq_refl) as [Hitem [Hstart [Hq Hrun]]].
  cbv zeta.
  rewrite Hitem, Hstart, Hq.
  rewrite (Hrun (JDict [("streamSid", JStr "MZ18")]) (JStr "MZ18") eq_refl eq_refl).
  repeat split.
Defined.

(** C7, as the code has it.  A caller 'media' event whose "media" object
    carries a payload and a timestamp that [int] converts (an integer, or a
    string of ASCII decimal digits, white space and sign allowed around
    them), received while the model's connection is open, sets
    [latest_media_timestamp] to the frame's timestamp, whatever the utterance
    and the mark queue are, and forwards the payload as one
    input_audio_buffer.append command.  Every caller 'media' event, whatever
    else it carries, received while the model's connection is not open, is
    dropped: nothing is sent, nothing is buffered, and
    [latest_media_timestamp] keeps its value. *)
Theorem media_event_forwarded_while_open (data : json) (s : session) :
  get data "event" = Return (JStr "media") ->
  (openai_ws_open s = true ->
   forall (media timestamp payload : json) (t : Z),
   getitem data "media" = Return media ->
   getitem media "timestamp" = Return timestamp ->
   int timestamp = Return t ->
   getitem media "payload" = Return payload ->
   receive_from_twilio_body (Json data) s
   = (Return tt,
      set_openai_ws_sent (openai_ws_sent s ++ [audio_append payload])
        (set_latest_media_timestamp t s))) /\
  (openai_ws_open s = false ->
   receive_from_twilio_body (Json data) s = (Return tt, s)).
Proof.
  intros Hev. split; [intros Hopen media timestamp payload t Hmedia Hts Hint Hpayload
                     | intros Hopen].
  - unfold receive_from_twilio_body. simpl json_loads.
    run_lift (eq_refl (Return data)). run_lift Hev. run_state.
    rewrite Hopen. run_tests.
    run_lift Hmedia. run_lift Hts. run_lift Hint. run_state.
    run_lift Hmedia. run_lift Hpayload.
    unfold openai_ws_send. cbn. rewrite Hopen. reflexivity.
  - unfold receive_from_twilio_body. simpl json_loads.
    run_lift (eq_refl (Return data)). run_lift Hev. run_state.
    rewrite Hopen. run_tests.
    run_lift Hev. run_tests. run_lift Hev. run_tests. reflexivity.
Qed.

Lemma media_event_forwarded_while_open_witness :
  let s := initial_session "" in
  let no_payload :=
    JDict [("event", JStr "media"); ("media", JDict [("timestamp", JStr "1350")])] in
  receive_from_twilio_body (Json (media_frame " 1_350" "fn5+")) s
  = (Return tt,
     set_openai_ws_sent (openai_ws_sent s ++ [audio_append (JStr "fn5+")])
       (set_latest_media_timestamp 1350 s)) /\
  receive_from_twilio_body (Json (media_frame "1350" "fn5+")) (set_openai_ws_open false s)
  = (Return tt, set_openai_ws_open false s) /\
  receive_from_twilio_body (Json no_payload) (set_openai_ws_open false s)
  = (Return tt, set_openai_ws_open false s).
Proof.
  split; [|split].
  - apply (proj1 (media_event_forwarded_while_open (media_frame " 1_350" "fn5+")
                    (initial_session "") eq_refl) eq_refl
             (JDict [("timestamp", JStr " 1_350"); ("payload", JStr "fn5+")])
             (JStr " 1_350") (JStr "fn5+") 1350);
      reflexivity.
  - apply (proj2 (media_event_forwarded_while_open (media_frame "1350" "fn5+")
                    (set_openai_ws_open false (initial_session "")) eq_refl)).
    reflexivity.
  - apply (proj2 (media_event_forwarded_while_open
                    (JDict [("event", JStr "media");
                            ("media", JDict [("timestamp", JStr "1350")])])
                    (set_openai_ws_open false (initial_session "")) eq_refl)).
    reflexivity.
Defined.

(** C7, as stated, fails: once the model's connection has ended, a caller
    media frame stamped 1350 leaves the caller clock at 0. *)
Lemma media_event_dropped_keeps_clock :
  let c := handle_media_stream ""
             [Twilio (Message (Json (start_frame "MZ18")));
              OpenAI Disconnect;
              Twilio (Message (Json (media_frame "1350" "fn5+")))] in
  receive_from_twilio_status c = Running /\
  latest_media_timestamp (vars c) = 0 /\
  latest_media_timestamp (vars c) <> 1350 /\
  openai_ws_sent (vars c) = [session_update ""].
Proof.
  vm_compute. repeat split. discriminate.
Qed.

(** ** Barge-in *)









(** ** The outbound pump *)

Lemma getitem_contains (v w : json) (k : string) :
  getitem v k = Return w -> contains k v = Return true.
Proof.
  destruct v; simpl; try discriminate.
  destruct (dict_lookup k items); [reflexivity | discriminate].
Qed.

Lemma get_total (v w : json) (k k' : string) :
  get v k = Return w -> exists w', get v k' = Return w'.
Proof.
  destruct v; simpl; try discriminate. intros _. eexists. reflexivity.
Qed.

Lemma get_truthy_getitem (v w : json) (k : string) :
  get v k = Return w -> truthy w = true -> getitem v k = Return w.
Proof.
  destruct v; simpl; try discriminate.
  destruct (dict_lookup k items).
  - intros [= ->] _. reflexivity.
  - intros [= <-]. discriminate.
Qed.

(** The audio-delta branch, run on a delta that decodes while the caller's
    socket accepts frames. *)
Lemma send_to_twilio_body_audio_delta (response delta item : json)
    (decoded : list byte) (s : session) :
  get response "type" = Return (JStr "response.output_audio.delta") ->
  getitem response "delta" = Return delta ->
  b64decode delta = Return decoded ->
  get response "item_id" = Return item ->
  websocket_open s = true ->
  send_to_twilio_body (Json response) s = (Return tt, after_audio_delta item decoded s).
Proof.
  intros Hty Hdelta Hdec Hitem Hws.
  unfold send_to_twilio_body, bind, lift, gets, ret.
  cbn [json_loads]. rewrite Hty. run_tests.
  rewrite (getitem_contains _ _ _ Hdelta), Hdelta, Hdec.
  unfold websocket_send_json at 1. rewrite Hws, Hitem.
  unfold after_audio_delta, send_mark, bind, gets, ret, websocket_send_json.
  destruct (truthy item) eqn:Htruthy; cbn [andb].
  - rewrite (get_truthy_getitem _ _ _ Hitem Htruthy).
    run_setters.
    destruct (py_eq item (last_assistant_item s)); cbn [negb];
      run_setters; destruct (truthy (stream_sid s)); run_setters;
      rewrite ?Hws; run_setters; rewrite <- ?app_assoc; reflexivity.
  - run_setters. destruct (truthy (stream_sid s)); run_setters;
      rewrite ?Hws; run_setters; rewrite <- ?app_assoc; reflexivity.
Qed.

(** ** What a statement leaves alone *)

Section Keeps.
Context {X : Type} (f : session -> X).

Lemma keeps_ret {A : Type} (a : A) : keeps f (ret a).
Proof. intros s. reflexivity. Qed.

Lemma keeps_lift {A : Type} (r : outcome A) : keeps f (lift r).
Proof. intros s. reflexivity. Qed.

Lemma keeps_gets {A : Type} (g : session -> A) : keeps f (gets g).
Proof. intros s. reflexivity. Qed.

Lemma keeps_modify (g : session -> session) :
  (forall s, f (g s) = f s) -> keeps f (modify g).
Proof. intros H s. apply H. Qed.

Lemma keeps_bind {A B : Type} (c : M A) (k : A -> M B) :
  keeps f c -> (forall a, keeps f (k a)) -> keeps f (bind c k).
Proof.
  intros Hc Hk s. unfold bind. specialize (Hc s).
  destruct (c s) as [[a|e] s1]; cbn [snd] in *.
  - rewrite Hk. exact Hc.
  - exact Hc.
Qed.

Lemma keeps_openai_ws_send (v : json) :
  (forall l s, f (set_openai_ws_sent l s) = f s) -> keeps f (openai_ws_send v).
Proof.
  intros H s. unfold openai_ws_send. destruct (openai_ws_open s); [apply H | reflexivity].
Qed.

Lemma keeps_websocket_send_json (v : json) :
  (forall l s, f (set_websocket_sent l s) = f s) -> keeps f (websocket_send_json v).
Proof.
  intros H s. unfold websocket_send_json.
  destruct (websocket_open s); [apply H | reflexivity].
Qed.
End Keeps.

Ltac keeps_step :=
  match goal with
  | |- keeps _ (bind _ _) => apply keeps_bind; [|intros ?]
  | |- keeps _ (ret _) => apply keeps_ret
  | |- keeps _ (lift _) => apply keeps_lift
  | |- keeps _ (gets _) => apply keeps_gets
  | |- keeps _ (modify _) => apply keeps_modify; intros ?; reflexivity
  | |- keeps _ openai_ws_close => apply keeps_modify; intros ?; reflexivity
  | |- keeps _ (openai_ws_send _) => apply keeps_openai_ws_send; intros ? ?; reflexivity
  | |- keeps _ (websocket_send_json _) =>
      apply keeps_websocket_send_json; intros ? ?; reflexivity
  | |- keeps _ (match ?x with _ => _ end) => destruct x
  end.

Ltac keeps_auto := repeat keeps_step.

(** [receive_from_twilio] never assigns the shared utterance, and never
    touches the caller's socket. *)
Lemma receive_from_twilio_body_keeps_utterance (m : text) :
  keeps last_assistant_item (receive_from_twilio_body m) /\
  keeps response_start_timestamp_twilio (receive_from_twilio_body m).
Proof.
  split; unfold receive_from_twilio_body; keeps_auto.
Qed.

Lemma receive_from_twilio_except_keeps_utterance (e : exn) :
  keeps last_assistant_item (receive_from_twilio_except e) /\
  keeps response_start_timestamp_twilio (receive_from_twilio_except e).
Proof.
  split; unfold receive_from_twilio_except; keeps_auto.
Qed.

Lemma receive_from_twilio_next_frame (item : stream_item) (s : session) :
  let s' := snd (receive_from_twilio_next item s) in
  last_assistant_item s' = last_assistant_item s /\
  response_start_timestamp_twilio s' = response_start_timestamp_twilio s.
Proof.
  destruct item as [m| |]; cbn [receive_from_twilio_next snd].
  - destruct (receive_from_twilio_body_keeps_utterance m) as [Hitem Hstart].
    specialize (Hitem s). specialize (Hstart s).
    destruct (receive_from_twilio_body m s) as [[[]|e] s1]; cbn [snd] in *.
    + now split.
    + destruct (receive_from_twilio_except_keeps_utterance e) as [Hitem' Hstart'].
      rewrite Hitem', Hstart'. now split.
  - now split.
  - destruct (receive_from_twilio_except_keeps_utterance RuntimeError)
      as [Hitem Hstart].
    cbv zeta. rewrite Hitem, Hstart. now split.
Qed.

Lemma receive_from_twilio_frame (items : list stream_item) (s : session) :
  let s' := snd (receive_from_twilio items s) in
  last_assistant_item s' = last_assistant_item s /\
  response_start_timestamp_twilio s' = response_start_timestamp_twilio s.
Proof.
  revert s. induction items as [|item items IH]; intros s; cbn [receive_from_twilio].
  - now split.
  - pose proof (receive_from_twilio_next_frame item s) as [Hitem Hstart].
    destruct (receive_from_twilio_next item s) as [[|] s1]; cbn [snd] in *.
    + destruct (IH s1) as [Hitem' Hstart']. cbv zeta in *. split; congruence.
    + now split.
Qed.

(** ** The current utterance *)

Lemma after_audio_delta_same (item : json) (decoded : list byte) (s : session) :
  truthy item = false \/ py_eq item (last_assistant_item s) = true ->
  response_start_timestamp_twilio (after_audio_delta item decoded s)
  = response_start_timestamp_twilio s /\
  last_assistant_item (after_audio_delta item decoded s) = last_assistant_item s.
Proof.
  intros H. unfold after_audio_delta. cbn.
  destruct H as [-> | ->]; [|rewrite andb_false_r]; now split.
Qed.

Lemma after_audio_delta_fresh (item : json) (decoded : list byte) (s : session) :
  truthy item = true ->
  py_eq item (last_assistant_item s) = false ->
  response_start_timestamp_twilio (after_audio_delta item decoded s)
  = Some (latest_media_timestamp s) /\
  last_assistant_item (after_audio_delta item decoded s) = item.
Proof.
  intros Ht He. unfold after_audio_delta. cbn. rewrite Ht, He. now split.
Qed.

Lemma truthy_JStr (id : string) : truthy (JStr id) = true <-> id <> "".
Proof.
  simpl. destruct (String.eqb_spec id "") as [-> | Hne]; cbn [negb]; split.
  - discriminate.
  - intros H. now contradiction H.
  - intros _. exact Hne.
  - reflexivity.
Qed.

Lemma py_eq_JStr_false (id : string) (v : json) :
  py_eq (JStr id) v = false <-> v <> JStr id.
Proof.
  pose proof (py_eq_JStr_left id v) as H.
  destruct (py_eq (JStr id) v); split; intros H'; try congruence.
  - exfalso. apply H'. now apply H.
  - intros ->. assert (false = true) by now apply H. discriminate.
Qed.

Lemma json_eq_dec_JStr (v : json) (id : string) : v = JStr id \/ v <> JStr id.
Proof.
  destruct (py_eq (JStr id) v) eqn:H.
  - left. now apply py_eq_JStr_left.
  - right. now apply py_eq_JStr_false.
Qed.

(** C6, as the code has it: an audio delta whose item_id is the current
    [last_assistant_item] leaves [response_start_timestamp_twilio] and the
    current item as they are; an audio delta whose item_id is non-empty and
    differs from the current item sets the start timestamp to the caller
    clock [latest_media_timestamp] of that moment and makes its item_id the
    current item; an audio delta whose item_id is the empty string changes
    neither.  Hence of two audio deltas carrying the same item_id, with only
    caller traffic handled in between, the second does not reset the start
    timestamp. *)
Theorem audio_delta_begins_utterance (response delta : json) (decoded : list byte)
    (id : string) (s : session) :
  get response "type" = Return (JStr "response.output_audio.delta") ->
  getitem response "delta" = Return delta ->
  b64decode delta = Return decoded ->
  get response "item_id" = Return (JStr id) ->
  websocket_open s = true ->
  let s' := snd (send_to_twilio_body (Json response) s) in
  (last_assistant_item s = JStr id ->
   response_start_timestamp_twilio s' = response_start_timestamp_twilio s /\
   last_assistant_item s' = JStr id) /\
  (last_assistant_item s <> JStr id -> id <> "" ->
   response_start_timestamp_twilio s' = Some (latest_media_timestamp s) /\
   last_assistant_item s' = JStr id) /\
  (id = "" ->
   response_start_timestamp_twilio s' = response_start_timestamp_twilio s /\
   last_assistant_item s' = last_assistant_item s) /\
  (forall (response2 delta2 : json) (decoded2 : list byte) (caller : list stream_item),
     get response2 "type" = Return (JStr "response.output_audio.delta") ->
     getitem response2 "delta" = Return delta2 ->
     b64decode delta2 = Return decoded2 ->
     get response2 "item_id" = Return (JStr id) ->
     let s1 := snd (receive_from_twilio caller s') in
     websocket_open s1 = true ->
     let s2 := snd (send_to_twilio_body (Json response2) s1) in
     response_start_timestamp_twilio s2 = response_start_timestamp_twilio s' /\
     last_assistant_item s2 = last_assistant_item s').
Proof.
  intros Hty Hdelta Hdec Hitem Hws s'. subst s'.
  rewrite (send_to_twilio_body_audio_delta _ _ _ _ _ Hty Hdelta Hdec Hitem Hws).
  cbn [snd].
  assert (Hsame : last_assistant_item s = JStr id ->
            response_start_timestamp_twilio (after_audio_delta (JStr id) decoded s)
            = response_start_timestamp_twilio s /\
            last_assistant_item (after_audio_delta (JStr id) decoded s) = JStr id).
  { intros Hcur.
    destruct (after_audio_delta_same (JStr id) decoded s) as [H1 H2].
    - right. now apply py_eq_JStr_left.
    - split; congruence. }
  assert (Hfresh : last_assistant_item s <> JStr id -> id <> "" ->
            response_start_timestamp_twilio (after_audio_delta (JStr id) decoded s)
            = Some (latest_media_timestamp s) /\
            last_assistant_item (after_audio_delta (JStr id) decoded s) = JStr id).
  { intros Hcur Hid. apply after_audio_delta_fresh.
    - now apply truthy_JStr.
    - now apply py_eq_JStr_false. }
  assert (Hempty : id = "" ->
            response_start_timestamp_twilio (after_audio_delta (JStr id) decoded s)
            = response_start_timestamp_twilio s /\
            last_assistant_item (after_audio_delta (JStr id) decoded s)
            = last_assistant_item s).
  { intros ->. apply after_audio_delta_same. left. reflexivity. }
  split; [exact Hsame|]. split; [exact Hfresh|]. split; [exact Hempty|].
  intros response2 delta2 decoded2 caller Hty2 Hdelta2 Hdec2 Hitem2.
  set (s1 := snd (receive_from_twilio caller (after_audio_delta (JStr id) decoded s))).
  intros Hws1.
  rewrite (send_to_twilio_body_audio_delta _ _ _ _ _ Hty2 Hdelta2 Hdec2 Hitem2 Hws1).
  cbn [snd].
  destruct (receive_from_twilio_frame caller (after_audio_delta (JStr id) decoded s))
    as [Hitem1 Hstart1].
  fold s1 in Hitem1, Hstart1.
  destruct (after_audio_delta_same (JStr id) decoded2 s1) as [H1 H2].
  - destruct (String.eqb_spec id "") as [-> | Hid]; [left; reflexivity|].
    right. apply py_eq_JStr_left. rewrite Hitem1.
    destruct (json_eq_dec_JStr (last_assistant_item s) id) as [Hcur | Hcur].
    + now apply Hsame.
    + now apply Hfresh.
  - split; congruence.
Qed.

Lemma audio_delta_begins_utterance_witness :
  let s := playing (JStr "a0") 1000 1350 ["responsePart"] in
  let s' := snd (send_to_twilio_body (Json (output_audio_delta "a1" "SGVsbG8=")) s) in
  let s1 := snd (receive_from_twilio [Message (Json (media_frame "1400" "fn5+"))] s') in
  let s2 := snd (send_to_twilio_body (Json (output_audio_delta "a1" "SGVsbG8=")) s1) in
  (response_start_timestamp_twilio s' = Some 1350 /\ last_assistant_item s' = JStr "a1") /\
  (response_start_timestamp_twilio s2 = response_start_timestamp_twilio s' /\
   last_assistant_item s2 = last_assistant_item s').
Proof.
  pose proof (audio_delta_begins_utterance
                (output_audio_delta "a1" "SGVsbG8=") (JStr "SGVsbG8=") hello "a1"
                (playing (JStr "a0") 1000 1350 ["responsePart"])
                eq_refl eq_refl eq_refl eq_refl eq_refl) as (_ & Hfresh & _ & Hpair).
  split.
  - apply Hfresh; discriminate.
  - apply (Hpair (output_audio_delta "a1" "SGVsbG8=") (JStr "SGVsbG8=") hello
             [Message (Json (media_frame "1400" "fn5+"))]
             eq_refl eq_refl eq_refl eq_refl).
    vm_compute. reflexivity.
Defined.

(** C6, as stated, fails: while "a1" is the current utterance, started at
    caller clock 1000, an audio delta arrives whose item_id is the empty
    string, a value different from "a1", with the caller clock at 1350: the
    start timestamp is not reset to 1350 and "a1" stays the current item. *)
Lemma audio_delta_empty_item_id_keeps_utterance :
  let s := playing (JStr "a1") 1000 1350 ["responsePart"] in
  let r := send_to_twilio_body (Json (output_audio_delta "" "SGVsbG8=")) s in
  JStr "" <> last_assistant_item s /\
  fst r = Return tt /\
  response_start_timestamp_twilio (snd r) = Some 1000 /\
  response_start_timestamp_twilio (snd r) <> Some (latest_media_timestamp s) /\
  last_assistant_item (snd r) = JStr "a1" /\
  last_assistant_item (snd r) <> JStr "".
Proof.
  vm_compute. repeat split; discriminate.
Qed.

(** ** What a statement can raise *)

Section RaisesOnly.
Context (P : exn -> Prop).

Lemma raises_only_ret {A : Type} (a : A) : raises_only P (ret a).
Proof. intros s e s' H. discriminate. Qed.

Lemma raises_only_gets {A : Type} (g : session -> A) : raises_only P (gets g).
Proof. intros s e s' H. discriminate. Qed.

Lemma raises_only_modify (g : session -> session) : raises_only P (modify g).
Proof. intros s e s' H. discriminate. Qed.

Lemma raises_only_lift {A : Type} (r : outcome A) :
  (forall e, r = Raise e -> P e) -> raises_only P (lift r).
Proof. intros H s e s' [= -> _]. now apply H. Qed.

Lemma raises_only_bind {A B : Type} (c : M A) (k : A -> M B) :
  raises_only P c -> (forall a, raises_only P (k a)) -> raises_only P (bind c k).
Proof.
  intros Hc Hk s e s'. unfold bind.
  destruct (c s) as [[a|e1] s1] eqn:Hcs.
  - apply Hk.
  - intros [= <- _]. exact (Hc _ _ _ Hcs).
Qed.

Lemma raises_only_openai_ws_send (v : json) :
  P ConnectionClosed -> raises_only P (openai_ws_send v).
Proof.
  intros H s e s'. unfold openai_ws_send.
  destruct (openai_ws_open s); [discriminate|]. now intros [= <- _].
Qed.
End RaisesOnly.

Lemma json_loads_raises (m : text) (e : exn) :
  json_loads m = Raise e -> e = JSONDecodeError.
Proof. destruct m; simpl; congruence. Qed.

Lemma get_raises (v : json) (k : string) (e : exn) :
  get v k = Raise e -> e = AttributeError.
Proof. destruct v; simpl; congruence. Qed.

Lemma getitem_raises (v : json) (k : string) (e : exn) :
  getitem v k = Raise e -> e = KeyError \/ e = TypeError.
Proof.
  destruct v; simpl; try (intros [= <-]; now right).
  destruct (dict_lookup k items); [discriminate|]. intros [= <-]. now left.
Qed.

Lemma int_raises (v : json) (e : exn) :
  int v = Raise e -> e = ValueError \/ e = TypeError.
Proof.
  destruct v; simpl; try discriminate; try (intros [= <-]; now right).
  destruct (int_of_string s); [discriminate|]. intros [= <-]. now left.
Qed.

Ltac raises_step :=
  match goal with
  | |- raises_only _ (bind _ _) => apply raises_only_bind; [|intros ?]
  | |- raises_only _ (ret _) => apply raises_only_ret
  | |- raises_only _ (gets _) => apply raises_only_gets
  | |- raises_only _ (modify _) => apply raises_only_modify
  | |- raises_only _ (openai_ws_send _) => apply raises_only_openai_ws_send; discriminate
  | |- raises_only _ (lift (json_loads _)) =>
      apply raises_only_lift; intros ? ->%json_loads_raises; discriminate
  | |- raises_only _ (lift (get _ _)) =>
      apply raises_only_lift; intros ? ->%get_raises; discriminate
  | |- raises_only _ (lift (getitem _ _)) =>
      apply raises_only_lift; intros ? [-> | ->]%getitem_raises; discriminate
  | |- raises_only _ (lift (int _)) =>
      apply raises_only_lift; intros ? [-> | ->]%int_raises; discriminate
  | |- raises_only _ (match ?x with _ => _ end) => destruct x
  end.

(** No statement of the loop body raises [WebSocketDisconnect]: whatever a
    caller message makes the body raise goes to the [except Exception]
    clause, which only prints. *)
Lemma receive_from_twilio_body_raises (m : text) :
  raises_only (fun e => e <> WebSocketDisconnect) (receive_from_twilio_body m).
Proof.
  unfold receive_from_twilio_body. repeat raises_step.
Qed.

Lemma receive_from_twilio_body_keeps_sockets (m : text) :
  keeps openai_ws_open (receive_from_twilio_body m) /\
  keeps websocket_open (receive_from_twilio_body m).
Proof.
  split; unfold receive_from_twilio_body; keeps_auto.
Qed.

(** ** Malformed input *)







(** ** Teardown *)

(** Nothing in the outbound pump closes the caller's socket. *)
Lemma send_to_twilio_body_keeps_caller_socket (m : text) :
  keeps websocket_open (send_to_twilio_body m).
Proof.
  unfold send_to_twilio_body, handle_speech_started_event, send_mark. keeps_auto.
Qed.

Lemma send_to_twilio_keeps_caller_socket (items : list stream_item) (s : session) :
  websocket_open (snd (send_to_twilio items s)) = websocket_open s.
Proof.
  revert s. induction items as [|item items IH]; intros s; [reflexivity|].
  cbn [send_to_twilio].
  assert (Hnext : websocket_open (snd (send_to_twilio_next item s)) = websocket_open s).
  { destruct item as [m| |]; cbn [send_to_twilio_next]; try reflexivity.
    pose proof (send_to_twilio_body_keeps_caller_socket m s) as H.
    destruct (send_to_twilio_body m s) as [[[]|e] s1]; exact H. }
  destruct (send_to_twilio_next item s) as [[|] s1]; cbn [snd] in *.
  - rewrite IH. exact Hnext.
  - exact Hnext.
Qed.

(** Nothing in the inbound pump closes the model's socket: the loop body
    does not, the end of the caller's connection ends the loop without
    entering an [except] clause, and the one statement that would, the
    [openai_ws.close()] under [except WebSocketDisconnect], is never reached,
    as the body never raises that exception. *)
Lemma receive_from_twilio_next_keeps_model_socket (item : stream_item) (s : session) :
  openai_ws_open (snd (receive_from_twilio_next item s)) = openai_ws_open s.
Proof.
  destruct item as [m| |]; cbn [receive_from_twilio_next]; try reflexivity.
  destruct (receive_from_twilio_body_keeps_sockets m) as [Hmodel _].
  specialize (Hmodel s).
  pose proof (receive_from_twilio_body_raises m s) as Hraises.
  destruct (receive_from_twilio_body m s) as [[[]|e] s1]; cbn [snd] in *.
  - exact Hmodel.
  - specialize (Hraises e s1 eq_refl).
    destruct e; try exact Hmodel. now contradiction Hraises.
Qed.

Lemma receive_from_twilio_keeps_model_socket (items : list stream_item) (s : session) :
  openai_ws_open (snd (receive_from_twilio items s)) = openai_ws_open s.
Proof.
  revert s. induction items as [|item items IH]; intros s; [reflexivity|].
  cbn [receive_from_twilio].
  pose proof (receive_from_twilio_next_keeps_model_socket item s) as Hnext.
  destruct (receive_from_twilio_next item s) as [[|] s1]; cbn [snd] in *.
  - rewrite IH. exact Hnext.
  - exact Hnext.
Qed.

(** C4, on the code: the end of one connection ends the pump that reads it
    and leaves the other connection as it was, in both directions.  When the
    caller hangs up, the inbound pump returns and the model's socket stays
    open, with the outbound pump still reading it; whatever the caller's
    connection delivers, the inbound pump never closes the model's socket.
    When the model's connection ends, cleanly or by a transport error, the
    outbound pump returns and the caller's socket stays open, with the
    inbound pump still reading it; whatever the model's connection delivers,
    the outbound pump never closes the caller's socket.  In particular, in a
    call that has started, either end leaves a half-open session. *)
Theorem connection_end_leaves_other_leg_open (SYSTEM_MESSAGE : string) (s : session) :
  let c := mkCall s Running Running in
  (gather_step c (Twilio Disconnect) = mkCall (set_websocket_open false s) Done Running /\
   openai_ws_open (set_websocket_open false s) = openai_ws_open s /\
   forall items, openai_ws_open (snd (receive_from_twilio items s)) = openai_ws_open s) /\
  (gather_step c (OpenAI Disconnect) = mkCall (set_openai_ws_open false s) Running Done /\
   gather_step c (OpenAI Failure) = mkCall (set_openai_ws_open false s) Running Done /\
   websocket_open (set_openai_ws_open false s) = websocket_open s /\
   forall items, websocket_open (snd (send_to_twilio items s)) = websocket_open s) /\
  let started := [Twilio (Message (Json (start_frame "MZ18")))] in
  let caller_gone := handle_media_stream SYSTEM_MESSAGE (started ++ [Twilio Disconnect]) in
  let model_gone := handle_media_stream SYSTEM_MESSAGE (started ++ [OpenAI Disconnect]) in
  (websocket_open (vars caller_gone) = false /\
   receive_from_twilio_status caller_gone = Done /\
   openai_ws_open (vars caller_gone) = true /\
   send_to_twilio_status caller_gone = Running) /\
  (openai_ws_open (vars model_gone) = false /\
   send_to_twilio_status model_gone = Done /\
   websocket_open (vars model_gone) = true /\
   receive_from_twilio_status model_gone = Running).
Proof.
  cbv zeta. split; [|split; [|split]].
  - split; [reflexivity|]. split; [reflexivity|].
    intros items. apply receive_from_twilio_keeps_model_socket.
  - split; [reflexivity|]. split; [reflexivity|]. split; [reflexivity|].
    intros items. apply send_to_twilio_keeps_caller_socket.
  - repeat split.
  - repeat split.
Qed.

(** ** Reachable states *)

Ltac break_match :=
  match goal with
  | |- context [match ?x with _ => _ end] =>
      lazymatch x with
      | context [match _ with _ => _ end] => fail
      | _ => destruct x eqn:?
      end
  end.

Lemma send_to_twilio_body_utterance_has_start (m : text) (s : session) :
  utterance_has_start s -> utterance_has_start (snd (send_to_twilio_body m s)).
Proof.
  unfold utterance_has_start. intros H.
  unfold send_to_twilio_body, handle_speech_started_event, send_mark,
    bind, lift, gets, ret, modify, openai_ws_send, websocket_send_json.
  cbv beta iota.
  repeat (break_match; cbv beta iota; run_setters);
    try assumption; try discriminate;
    intros Ht;
    first [congruence
          | apply H; first [reflexivity | assumption]
          | exfalso; now apply H].
Qed.

Lemma gather_step_utterance_has_start (c : call) (ev : event) :
  utterance_has_start (vars c) -> utterance_has_start (vars (gather_step c ev)).
Proof.
  intros H. destruct ev as [item|item]; cbn [gather_step].
  - destruct (receive_from_twilio_status c); [|exact H].
    destruct (receive_from_twilio_next_frame item (vars c)) as [Hitem Hstart].
    destruct (receive_from_twilio_next item (vars c)) as [st s']. cbn [vars snd] in *.
    unfold utterance_has_start in *. rewrite Hitem, Hstart. exact H.
  - destruct (send_to_twilio_status c); [|exact H].
    destruct item as [m| |]; cbn [send_to_twilio_next]; try exact H.
    pose proof (send_to_twilio_body_utterance_has_start m (vars c) H) as H'.
    destruct (send_to_twilio_body m (vars c)) as [[[]|e] s']; exact H'.
Qed.

(** In every state that a call reaches, a current utterance has a start
    timestamp: the barge-in handler finds either both or no utterance. *)
Lemma handle_media_stream_utterance_has_start (SYSTEM_MESSAGE : string)
    (evs : list event) :
  utterance_has_start (vars (handle_media_stream SYSTEM_MESSAGE evs)).
Proof.
  unfold handle_media_stream.
  assert (H : forall c, utterance_has_start (vars c) ->
                        utterance_has_start (vars (gather evs c))).
  { induction evs as [|ev evs IH]; intros c Hc; [exact Hc|].
    cbn [gather fold_left]. apply IH. now apply gather_step_utterance_has_start. }
  specialize (H (mkCall (initial_session SYSTEM_MESSAGE) Running Running)).
  cbn [vars] in H.
  assert (H0 : utterance_has_start (initial_session SYSTEM_MESSAGE)).
  { intros Ht. discriminate. }
  specialize (H H0).
  destruct (receive_from_twilio_status
              (gather evs (mkCall (initial_session SYSTEM_MESSAGE) Running Running))),
    (send_to_twilio_status
       (gather evs (mkCall (initial_session SYSTEM_MESSAGE) Running Running)));
    exact H.
Qed.

(** ** Base64: decoding what the encoder produced *)

Lemma range_forallb (n : nat) (P : Z -> bool) :
  forallb P (range n) = true -> forall z, 0 <= z < Z.of_nat n -> P z = true.
Proof.
  intros H z Hz. rewrite forallb_forall in H. apply H.
  unfold range. apply in_map_iff. exists (Z.to_nat z). split.
  - lia.
  - apply in_seq. lia.
Qed.

Lemma byte_val_range (x : byte) : 0 <= byte_val x < 256.
Proof.
  unfold byte_val. pose proof (Byte.to_N_bounded x). lia.
Qed.

Lemma byte_of_Z_val (x : byte) : byte_of_Z (byte_val x) = x.
Proof.
  unfold byte_of_Z. rewrite Z.mod_small by apply byte_val_range.
  unfold byte_val. rewrite N2Z.id, Byte.of_to_N. reflexivity.
Qed.

(** The four sextets of a group of three bytes. *)
Lemma sextet_char (i : Z) :
  0 <= i < 64 ->
  Ascii.eqb (b2a i) BASE64_PAD = false /\
  table_a2b_base64 (b2a i) = Some i /\
  is_ascii (b2a i) = true.
Proof.
  intros Hi.
  pose proof (range_forallb 64
                (fun i => negb (Ascii.eqb (b2a i) BASE64_PAD)
                          && match table_a2b_base64 (b2a i) with
                             | Some j => j =? i
                             | None => false
                             end
                          && is_ascii (b2a i))
                ltac:(vm_compute; reflexivity) i Hi) as H.
  cbv beta in H.
  apply andb_true_iff in H as [H Hascii]. apply andb_true_iff in H as [Hpad Htab].
  split; [|split].
  - now apply negb_true_iff.
  - destruct (table_a2b_base64 (b2a i)); [|discriminate].
    apply Z.eqb_eq in Htab. now subst.
  - exact Hascii.
Qed.

Lemma sextets_first_pair (a b : Z) :
  0 <= a < 256 -> 0 <= b < 256 ->
  let s1 := Z.shiftr a 2 in
  let s2 := Z.lor (Z.shiftl (Z.land a 3) 4) (Z.shiftr b 4) in
  0 <= s1 < 64 /\ 0 <= s2 < 64 /\
  Z.lor (Z.shiftl s1 2) (Z.shiftr s2 4) = a /\
  Z.land s2 15 = Z.shiftr b 4.
Proof.
  intros Ha Hb.
  pose proof (range_forallb 256
                (fun a => forallb (fun b =>
                   let s1 := Z.shiftr a 2 in
                   let s2 := Z.lor (Z.shiftl (Z.land a 3) 4) (Z.shiftr b 4) in
                   (0 <=? s1) && (s1 <? 64) && (0 <=? s2) && (s2 <? 64)
                   && (Z.lor (Z.shiftl s1 2) (Z.shiftr s2 4) =? a)
                   && (Z.land s2 15 =? Z.shiftr b 4)) (range 256))
                ltac:(vm_compute; reflexivity) a Ha) as H.
  cbv beta in H. apply (range_forallb 256 _ H) in Hb. cbv zeta in *.
  repeat (apply andb_true_iff in Hb as [Hb ?]).
  repeat split; lia.
Qed.

Lemma sextets_last_pair (b c : Z) :
  0 <= b < 256 -> 0 <= c < 256 ->
  let s3 := Z.lor (Z.shiftl (Z.land b 15) 2) (Z.shiftr c 6) in
  let s4 := Z.land c 63 in
  0 <= s3 < 64 /\ 0 <= s4 < 64 /\
  Z.lor (Z.shiftl (Z.shiftr b 4) 4) (Z.shiftr s3 2) = b /\
  Z.lor (Z.shiftl (Z.land s3 3) 6) s4 = c.
Proof.
  intros Hb Hc.
  pose proof (range_forallb 256
                (fun b => forallb (fun c =>
                   let s3 := Z.lor (Z.shiftl (Z.land b 15) 2) (Z.shiftr c 6) in
                   let s4 := Z.land c 63 in
                   (0 <=? s3) && (s3 <? 64) && (0 <=? s4) && (s4 <? 64)
                   && (Z.lor (Z.shiftl (Z.shiftr b 4) 4) (Z.shiftr s3 2) =? b)
                   && (Z.lor (Z.shiftl (Z.land s3 3) 6) s4 =? c)) (range 256))
                ltac:(vm_compute; reflexivity) b Hb) as H.
  cbv beta in H. apply (range_forallb 256 _ H) in Hc. cbv zeta in *.
  repeat (apply andb_true_iff in Hc as [Hc ?]).
  repeat split; lia.
Qed.

Section DecodeSextet.
Variables (i : Z) (rest : list ascii) (leftchar pads : Z) (bin_data : list byte).
Hypothesis Hi : 0 <= i < 64.

Lemma a2b_base64_loop_sextet (quad_pos : Z) :
  a2b_base64_loop (b2a i :: rest) quad_pos leftchar pads bin_data
  = if quad_pos =? 0 then
      a2b_base64_loop rest 1 i 0 bin_data
    else if quad_pos =? 1 then
      a2b_base64_loop rest 2 (Z.land i 15) 0
        (bin_data ++ [byte_of_Z (Z.lor (Z.shiftl leftchar 2) (Z.shiftr i 4))])
    else if quad_pos =? 2 then
      a2b_base64_loop rest 3 (Z.land i 3) 0
        (bin_data ++ [byte_of_Z (Z.lor (Z.shiftl leftchar 4) (Z.shiftr i 2))])
    else
      a2b_base64_loop rest 0 0 0
        (bin_data ++ [byte_of_Z (Z.lor (Z.shiftl leftchar 6) i)]).
Proof.
  destruct (sextet_char i Hi) as (Hpad & Htab & _).
  cbn [a2b_base64_loop]. rewrite Hpad, Htab. reflexivity.
Qed.
End DecodeSextet.

Lemma list_ind3 {A : Type} (P : list A -> Prop) :
  P [] ->
  (forall x, P [x]) ->
  (forall x y, P [x; y]) ->
  (forall x y z l, P l -> P (x :: y :: z :: l)) ->
  forall l, P l.
Proof.
  intros H0 H1 H2 H3.
  refine (fix go (l : list A) : P l :=
            match l with
            | [] => H0
            | [x] => H1 x
            | [x; y] => H2 x y
            | x :: y :: z :: l' => H3 x y z l' (go l')
            end).
Qed.

(** The decoding loop, started at a quad boundary on the encoding of [b],
    appends [b] to what it had decoded. *)
Lemma a2b_base64_loop_b2a_base64 (b : list byte) :
  forall leftchar bin_data,
    a2b_base64_loop (b2a_base64 b) 0 leftchar 0 bin_data = Some (bin_data ++ b).
Proof.
  induction b as [|x|x y|x y z b IH] using list_ind3; intros leftchar bin_data.
  - cbn. rewrite app_nil_r. reflexivity.
  - pose proof (byte_val_range x) as Hx.
    destruct (sextets_first_pair (byte_val x) 0 Hx ltac:(lia))
      as (H1 & H2 & Hout & _).
    cbv zeta in H2, Hout. change (Z.shiftr 0 4) with 0 in H2, Hout.
    rewrite Z.lor_0_r in H2, Hout.
    cbn [b2a_base64].
    rewrite (a2b_base64_loop_sextet _ _ _ _ _ H1). cbn [Z.eqb].
    rewrite (a2b_base64_loop_sextet _ _ _ _ _ H2). cbn [Z.eqb Pos.eqb].
    rewrite Hout, byte_of_Z_val. reflexivity.
  - pose proof (byte_val_range x) as Hx. pose proof (byte_val_range y) as Hy.
    destruct (sextets_first_pair (byte_val x) (byte_val y) Hx Hy)
      as (H1 & H2 & Hout1 & Hleft).
    destruct (sextets_last_pair (byte_val y) 0 Hy ltac:(lia))
      as (H3 & _ & Hout2 & _).
    cbv zeta in H2, Hout1, Hleft, H3, Hout2.
    change (Z.shiftr 0 6) with 0 in H3, Hout2. rewrite Z.lor_0_r in H3, Hout2.
    cbn [b2a_base64].
    rewrite (a2b_base64_loop_sextet _ _ _ _ _ H1). cbn [Z.eqb].
    rewrite (a2b_base64_loop_sextet _ _ _ _ _ H2). cbn [Z.eqb Pos.eqb].
    rewrite (a2b_base64_loop_sextet _ _ _ _ _ H3). cbn [Z.eqb Pos.eqb].
    rewrite Hout1, Hleft, Hout2, !byte_of_Z_val, <- app_assoc. reflexivity.
  - pose proof (byte_val_range x) as Hx. pose proof (byte_val_range y) as Hy.
    pose proof (byte_val_range z) as Hz.
    destruct (sextets_first_pair (byte_val x) (byte_val y) Hx Hy)
      as (H1 & H2 & Hout1 & Hleft).
    destruct (sextets_last_pair (byte_val y) (byte_val z) Hy Hz)
      as (H3 & H4 & Hout2 & Hout3).
    cbv zeta in H2, Hout1, Hleft, H3, H4, Hout2, Hout3.
    cbn [b2a_base64].
    rewrite (a2b_base64_loop_sextet _ _ _ _ _ H1). cbn [Z.eqb].
    rewrite (a2b_base64_loop_sextet _ _ _ _ _ H2). cbn [Z.eqb Pos.eqb].
    rewrite (a2b_base64_loop_sextet _ _ _ _ _ H3). cbn [Z.eqb Pos.eqb].
    rewrite (a2b_base64_loop_sextet _ _ _ _ _ H4). cbn [Z.eqb Pos.eqb].
    rewrite Hout1, Hleft, Hout2, Hout3, !byte_of_Z_val, IH, <- !app_assoc.
    reflexivity.
Qed.

Lemma b2a_base64_is_ascii (b : list byte) : forallb is_ascii (b2a_base64 b) = true.
Proof.
  induction b as [|x|x y|x y z b IH] using list_ind3.
  - reflexivity.
  - pose proof (byte_val_range x) as Hx.
    destruct (sextets_first_pair (byte_val x) 0 Hx ltac:(lia)) as (H1 & H2 & _).
    cbv zeta in H2. change (Z.shiftr 0 4) with 0 in H2. rewrite Z.lor_0_r in H2.
    cbn [b2a_base64 forallb].
    rewrite (proj2 (proj2 (sextet_char _ H1))), (proj2 (proj2 (sextet_char _ H2))).
    reflexivity.
  - pose proof (byte_val_range x) as Hx. pose proof (byte_val_range y) as Hy.
    destruct (sextets_first_pair (byte_val x) (byte_val y) Hx Hy) as (H1 & H2 & _).
    destruct (sextets_last_pair (byte_val y) 0 Hy ltac:(lia)) as (H3 & _).
    cbv zeta in H2, H3. change (Z.shiftr 0 6) with 0 in H3. rewrite Z.lor_0_r in H3.
    cbn [b2a_base64 forallb].
    rewrite (proj2 (proj2 (sextet_char _ H1))), (proj2 (proj2 (sextet_char _ H2))),
      (proj2 (proj2 (sextet_char _ H3))).
    reflexivity.
  - pose proof (byte_val_range x) as Hx. pose proof (byte_val_range y) as Hy.
    pose proof (byte_val_range z) as Hz.
    destruct (sextets_first_pair (byte_val x) (byte_val y) Hx Hy) as (H1 & H2 & _).
    destruct (sextets_last_pair (byte_val y) (byte_val z) Hy Hz) as (H3 & H4 & _).
    cbv zeta in H2, H3, H4.
    cbn [b2a_base64 forallb].
    rewrite (proj2 (proj2 (sextet_char _ H1))), (proj2 (proj2 (sextet_char _ H2))),
      (proj2 (proj2 (sextet_char _ H3))), (proj2 (proj2 (sextet_char _ H4))), IH.
    reflexivity.
Qed.

(** [b64decode(b64encode(b)) == b] *)
Lemma b64decode_b64encode (b : list byte) :
  b64decode (JStr (b64encode b)) = Return b.
Proof.
  unfold b64decode, b64encode, a2b_base64.
  rewrite list_ascii_of_string_of_list_ascii, b2a_base64_is_ascii.
  rewrite a2b_base64_loop_b2a_base64. reflexivity.
Qed.

(** ** Forwarding the model's audio *)

(** C10: for an audio delta whose delta field is a canonical base64 string,
    the payload of the media frame sent to the caller is that very string. *)
Theorem audio_delta_payload_is_delta (response : json) (d : string) (s : session) :
  get response "type" = Return (JStr "response.output_audio.delta") ->
  getitem response "delta" = Return (JStr d) ->
  canonical_base64 d ->
  websocket_open s = true ->
  let r := send_to_twilio_body (Json response) s in
  fst r = Return tt /\
  websocket_sent (snd r)
  = websocket_sent s
    ++ JDict [("event", JStr "media");
              ("streamSid", stream_sid s);
              ("media", JDict [("payload", JStr d)])]
       :: (if truthy (stream_sid s) then [mark_event (stream_sid s)] else []).
Proof.
  intros Hty Hdelta [b ->] Hws r. subst r.
  destruct (get_total _ _ _ "item_id" Hty) as [item Hitem].
  rewrite (send_to_twilio_body_audio_delta _ _ _ _ _ Hty Hdelta
             (b64decode_b64encode b) Hitem Hws).
  split; reflexivity.
Qed.

Lemma audio_delta_payload_is_delta_witness :
  let r := send_to_twilio_body (Json (output_audio_delta "a1" "SGVsbG8="))
             (playing JNull 0 0 []) in
  fst r = Return tt /\
  websocket_sent (snd r)
  = [audio_delta (JStr "MZ18") "SGVsbG8="; mark_event (JStr "MZ18")].
Proof.
  apply (audio_delta_payload_is_delta (output_audio_delta "a1" "SGVsbG8=")
           "SGVsbG8=" (playing JNull 0 0 []) eq_refl eq_refl).
  - exists hello. reflexivity.
  - reflexivity.
Defined.

(** The hypothesis matters: "SGVsbG9=" is not canonical (its last quad
    carries two stray bits); it decodes to the bytes of "Hello" and is sent
    on as "SGVsbG8=". *)
Example non_canonical_delta_is_normalised :
  b64decode (JStr "SGVsbG9=") = Return hello /\
  websocket_sent
    (snd (send_to_twilio_body (Json (output_audio_delta "a1" "SGVsbG9="))
            (playing JNull 0 0 [])))
  = [audio_delta (JStr "MZ18") "SGVsbG8="; mark_event (JStr "MZ18")].
Proof. vm_compute. split; reflexivity. Qed.

Lemma after_audio_delta_connection (item : json) (decoded : list byte) (s : session) :
  stream_sid (after_audio_delta item decoded s) = stream_sid s /\
  websocket_open (after_audio_delta item decoded s) = websocket_open s.
Proof. split; reflexivity. Qed.

(** C5, as the code has it: N audio deltas whose delta fields decode,
    received while the caller's socket is open, are forwarded as N media
    frames, in the order received, none dropped, each carrying the
    re-encoded audio.  When [stream_sid] is set, every frame is followed by
    a mark request and a mark is queued per frame; when it is not set (no
    'start' event yet), the frames are sent without any mark request and
    nothing is queued. *)
Theorem audio_deltas_forwarded_in_order (ds : list (json * list byte)) (s : session) :
  Forall (fun rd => is_audio_delta (fst rd) (snd rd)) ds ->
  websocket_open s = true ->
  let sid := stream_sid s in
  let r := send_to_twilio (map (fun rd => Message (Json (fst rd))) ds) s in
  fst r = Running /\
  (truthy sid = true ->
   websocket_sent (snd r)
   = websocket_sent s
     ++ flat_map (fun rd => [audio_delta sid (b64encode (snd rd)); mark_event sid]) ds /\
   mark_queue (snd r) = mark_queue s ++ repeat "responsePart" (List.length ds)) /\
  (truthy sid = false ->
   websocket_sent (snd r)
   = websocket_sent s ++ map (fun rd => audio_delta sid (b64encode (snd rd))) ds /\
   mark_queue (snd r) = mark_queue s).
Proof.
  intros Hds. revert s.
  induction Hds as [|[response decoded] ds [Hty (delta & Hdelta & Hdec)] Hds IH];
    intros s Hws.
  - cbn. rewrite !app_nil_r. repeat split.
  - cbn [fst snd] in *.
    destruct (get_total _ _ _ "item_id" Hty) as [item Hitem].
    cbn [map send_to_twilio send_to_twilio_next fst].
    rewrite (send_to_twilio_body_audio_delta _ _ _ _ _ Hty Hdelta Hdec Hitem Hws).
    destruct (after_audio_delta_connection item decoded s) as [Hsid Hws'].
    specialize (IH (after_audio_delta item decoded s)).
    rewrite Hsid, Hws' in IH. destruct (IH Hws) as (Hrun & Hset & Hunset).
    split; [exact Hrun|]. split.
    + intros Htruthy. destruct (Hset Htruthy) as [Hsent Hq].
      rewrite Hsent, Hq. unfold after_audio_delta.
      cbn [websocket_sent mark_queue flat_map List.length repeat].
      rewrite Htruthy, <- !app_assoc. split; reflexivity.
    + intros Hfalsy. destruct (Hunset Hfalsy) as [Hsent Hq].
      rewrite Hsent, Hq. unfold after_audio_delta.
      cbn [websocket_sent mark_queue map].
      rewrite Hfalsy, <- !app_assoc. split; reflexivity.
Qed.

Lemma audio_deltas_forwarded_in_order_witness :
  let r := send_to_twilio
             [Message (Json (output_audio_delta "a1" "SGVsbG8="));
              Message (Json (output_audio_delta "a1" "fn5+"))]
             (playing JNull 0 0 []) in
  fst r = Running /\
  websocket_sent (snd r)
  = [audio_delta (JStr "MZ18") "SGVsbG8="; mark_event (JStr "MZ18");
     audio_delta (JStr "MZ18") "fn5+"; mark_event (JStr "MZ18")] /\
  mark_queue (snd r) = ["responsePart"; "responsePart"].
Proof.
  assert (Hds : Forall (fun rd => is_audio_delta (fst rd) (snd rd))
                  [(output_audio_delta "a1" "SGVsbG8=", hello);
                   (output_audio_delta "a1" "fn5+", [x7e; x7e; x7e])]).
  { repeat constructor.
    - exists (JStr "SGVsbG8="). split; reflexivity.
    - exists (JStr "fn5+"). split; reflexivity. }
  destruct (audio_deltas_forwarded_in_order _ (playing JNull 0 0 []) Hds eq_refl)
    as (Hrun & Hset & _).
  split; [exact Hrun|]. exact (Hset eq_refl).
Defined.

(** C5, as stated, fails: before any 'start' event [stream_sid] is [None];
    an audio delta received then is forwarded as a media frame that no mark
    request follows, and no mark is queued. *)
Lemma audio_delta_before_start_sends_no_mark :
  let c := handle_media_stream ""
             [OpenAI (Message (Json (output_audio_delta "a1" "SGVsbG8=")))] in
  websocket_sent (vars c) = [audio_delta JNull "SGVsbG8="] /\
  ~ In (mark_event JNull) (websocket_sent (vars c)) /\
  mark_queue (vars c) = [].
Proof.
  vm_compute. split; [reflexivity|]. split; [|reflexivity].
  intros [H | []]. discriminate.
Qed.

(** * Further properties *)

(** ** What a statement sends *)

Section Emits.
Context (log : session -> list json) (P : json -> Prop).

Lemma emits_keeps {A : Type} (c : M A) : keeps log c -> emits log P c.
Proof.
  intros H s. exists []. rewrite app_nil_r. split; [apply H | constructor].
Qed.

Lemma emits_bind {A B : Type} (c : M A) (k : A -> M B) :
  emits log P c -> (forall a, emits log P (k a)) -> emits log P (bind c k).
Proof.
  intros Hc Hk s. unfold bind. destruct (Hc s) as (l1 & H1 & HP1).
  destruct (c s) as [[a|e] s1]; cbn [snd] in *.
  - destruct (Hk a s1) as (l2 & H2 & HP2). exists (l1 ++ l2). split.
    + rewrite H2, H1, app_assoc. reflexivity.
    + apply Forall_app. now split.
  - exists l1. now split.
Qed.
End Emits.

Lemma emits_openai_ws_send (P : json -> Prop) (v : json) :
  P v -> emits openai_ws_sent P (openai_ws_send v).
Proof.
  intros Hv s. unfold openai_ws_send. destruct (openai_ws_open s); cbn [snd].
  - exists [v]. split; [reflexivity | now constructor].
  - exists []. rewrite app_nil_r. split; [reflexivity | constructor].
Qed.

Lemma emits_websocket_send_json (P : json -> Prop) (v : json) :
  P v -> emits websocket_sent P (websocket_send_json v).
Proof.
  intros Hv s. unfold websocket_send_json. destruct (websocket_open s); cbn [snd].
  - exists [v]. split; [reflexivity | now constructor].
  - exists []. rewrite app_nil_r. split; [reflexivity | constructor].
Qed.

Ltac emits_step :=
  match goal with
  | |- emits _ _ (bind _ _) => apply emits_bind; [|intros ?]
  | |- emits _ _ (ret _) => apply emits_keeps, keeps_ret
  | |- emits _ _ (lift _) => apply emits_keeps, keeps_lift
  | |- emits _ _ (gets _) => apply emits_keeps, keeps_gets
  | |- emits _ _ (modify _) =>
      apply emits_keeps, keeps_modify; intros ?; reflexivity
  | |- emits _ _ openai_ws_close =>
      apply emits_keeps, keeps_modify; intros ?; reflexivity
  | |- emits openai_ws_sent _ (openai_ws_send _) => apply emits_openai_ws_send
  | |- emits websocket_sent _ (websocket_send_json _) => apply emits_websocket_send_json
  | |- emits _ _ (openai_ws_send _) =>
      apply emits_keeps, keeps_openai_ws_send; intros ? ?; reflexivity
  | |- emits _ _ (websocket_send_json _) =>
      apply emits_keeps, keeps_websocket_send_json; intros ? ?; reflexivity
  | |- emits _ _ (match ?x with _ => _ end) => destruct x
  end.

Lemma receive_from_twilio_body_emits (m : text) :
  emits openai_ws_sent is_audio_append (receive_from_twilio_body m) /\
  keeps websocket_sent (receive_from_twilio_body m).
Proof.
  split; unfold receive_from_twilio_body.
  - repeat emits_step. eexists. reflexivity.
  - keeps_auto.
Qed.

Lemma send_to_twilio_body_emits (m : text) :
  emits openai_ws_sent is_truncate (send_to_twilio_body m) /\
  emits websocket_sent is_caller_frame (send_to_twilio_body m).
Proof.
  split; unfold send_to_twilio_body, handle_speech_started_event, send_mark.
  - repeat emits_step. do 2 eexists. reflexivity.
  - repeat emits_step.
    + left. do 2 eexists. reflexivity.
    + right. left. eexists. reflexivity.
    + right. right. eexists. reflexivity.
Qed.

Lemma receive_from_twilio_except_keeps_logs (e : exn) :
  keeps openai_ws_sent (receive_from_twilio_except e) /\
  keeps websocket_sent (receive_from_twilio_except e).
Proof.
  split; unfold receive_from_twilio_except; keeps_auto.
Qed.

Lemma receive_from_twilio_next_emits (item : stream_item) (s : session) :
  let s' := snd (receive_from_twilio_next item s) in
  (exists added, openai_ws_sent s' = openai_ws_sent s ++ added /\
                 Forall is_audio_append added) /\
  websocket_sent s' = websocket_sent s.
Proof.
  destruct item as [m| |]; cbn [receive_from_twilio_next snd].
  - destruct (receive_from_twilio_body_emits m) as [Hmodel Hcaller].
    specialize (Hmodel s). specialize (Hcaller s).
    destruct (receive_from_twilio_body m s) as [[[]|e] s1]; cbn [snd] in *.
    + now split.
    + destruct (receive_from_twilio_except_keeps_logs e) as [H1 H2].
      rewrite H1, H2. now split.
  - split; [|reflexivity].
    exists []. rewrite app_nil_r. split; [reflexivity | constructor].
  - destruct (receive_from_twilio_except_keeps_logs RuntimeError) as [H1 H2].
    rewrite H1, H2. split; [|reflexivity].
    exists []. rewrite app_nil_r. split; [reflexivity | constructor].
Qed.

Lemma send_to_twilio_next_emits (item : stream_item) (s : session) :
  let s' := snd (send_to_twilio_next item s) in
  (exists added, openai_ws_sent s' = openai_ws_sent s ++ added /\
                 Forall is_truncate added) /\
  (exists added, websocket_sent s' = websocket_sent s ++ added /\
                 Forall is_caller_frame added).
Proof.
  destruct item as [m| |]; cbn [send_to_twilio_next snd].
  - destruct (send_to_twilio_body_emits m) as [Hmodel Hcaller].
    specialize (Hmodel s). specialize (Hcaller s).
    destruct (send_to_twilio_body m s) as [[[]|e] s1]; cbn [snd] in *; now split.
  - split; exists []; rewrite app_nil_r; (split; [reflexivity | constructor]).
  - split; exists []; rewrite app_nil_r; (split; [reflexivity | constructor]).
Qed.

(** ** What each pump sends, and what it leaves to the other *)

(** X1: whatever the caller's connection delivers, [receive_from_twilio]
    sends the model nothing but input_audio_buffer.append commands, sends
    the caller nothing at all, and changes neither the current utterance
    [last_assistant_item] nor its start timestamp. *)
Theorem receive_from_twilio_footprint (items : list stream_item) (s : session) :
  let s' := snd (receive_from_twilio items s) in
  (exists added, openai_ws_sent s' = openai_ws_sent s ++ added /\
                 Forall is_audio_append added) /\
  websocket_sent s' = websocket_sent s /\
  last_assistant_item s' = last_assistant_item s /\
  response_start_timestamp_twilio s' = response_start_timestamp_twilio s.
Proof.
  cbv zeta.
  destruct (receive_from_twilio_frame items s) as [Hitem Hstart].
  split; [|split; [|split; assumption]]; clear Hitem Hstart.
  - revert s. induction items as [|item items IH]; intros s; cbn [receive_from_twilio].
    + exists []. rewrite app_nil_r. split; [reflexivity | constructor].
    + destruct (receive_from_twilio_next_emits item s) as [(l1 & H1 & HP1) _].
      destruct (receive_from_twilio_next item s) as [[|] s1]; cbn [snd] in *.
      * destruct (IH s1) as (l2 & H2 & HP2). exists (l1 ++ l2). split.
        -- rewrite H2, H1, app_assoc. reflexivity.
        -- apply Forall_app. now split.
      * exists l1. now split.
  - revert s. induction items as [|item items IH]; intros s; cbn [receive_from_twilio].
    + reflexivity.
    + destruct (receive_from_twilio_next_emits item s) as [_ H1].
      destruct (receive_from_twilio_next item s) as [[|] s1]; cbn [snd] in *.
      * rewrite IH. exact H1.
      * exact H1.
Qed.

Lemma send_to_twilio_body_keeps_caller_state (m : text) :
  keeps stream_sid (send_to_twilio_body m) /\
  keeps latest_media_timestamp (send_to_twilio_body m) /\
  keeps receive_from_twilio_locals (send_to_twilio_body m) /\
  keeps openai_ws_open (send_to_twilio_body m).
Proof.
  repeat split;
    unfold send_to_twilio_body, handle_speech_started_event, send_mark; keeps_auto.
Qed.

(** X2: whatever the model's connection delivers, [send_to_twilio] sends
    the model nothing but conversation.item.truncate commands and sends the
    caller nothing but media, mark and clear frames; it never changes
    [stream_sid], the caller clock [latest_media_timestamp] or the local
    frame of [receive_from_twilio], and it never closes the caller's socket. *)
Theorem send_to_twilio_footprint (items : list stream_item) (s : session) :
  let s' := snd (send_to_twilio items s) in
  (exists added, openai_ws_sent s' = openai_ws_sent s ++ added /\
                 Forall is_truncate added) /\
  (exists added, websocket_sent s' = websocket_sent s ++ added /\
                 Forall is_caller_frame added) /\
  stream_sid s' = stream_sid s /\
  latest_media_timestamp s' = latest_media_timestamp s /\
  receive_from_twilio_locals s' = receive_from_twilio_locals s /\
  websocket_open s' = websocket_open s.
Proof.
  cbv zeta. revert s.
  induction items as [|item items IH]; intros s; cbn [send_to_twilio].
  - repeat split; try (exists []; rewrite app_nil_r; split; [reflexivity | constructor]).
  - destruct (send_to_twilio_next_emits item s) as [(l1 & H1 & HP1) (l2 & H2 & HP2)].
    assert (Hkeep : stream_sid (snd (send_to_twilio_next item s)) = stream_sid s /\
                    latest_media_timestamp (snd (send_to_twilio_next item s))
                    = latest_media_timestamp s /\
                    receive_from_twilio_locals (snd (send_to_twilio_next item s))
                    = receive_from_twilio_locals s /\
                    websocket_open (snd (send_to_twilio_next item s)) = websocket_open s).
    { destruct item as [m| |]; cbn [send_to_twilio_next snd]; try (repeat split; reflexivity).
      destruct (send_to_twilio_body_keeps_caller_state m) as (K1 & K2 & K3 & _).
      pose proof (send_to_twilio_body_keeps_caller_socket m s) as K4.
      specialize (K1 s). specialize (K2 s). specialize (K3 s).
      destruct (send_to_twilio_body m s) as [[[]|e] s1]; cbn [snd] in *; now repeat split. }
    destruct Hkeep as (K1 & K2 & K3 & K4).
    destruct (send_to_twilio_next item s) as [[|] s1]; cbn [snd] in *.
    + destruct (IH s1) as ((l1' & H1' & HP1') & (l2' & H2' & HP2') & J1 & J2 & J3 & J4).
      split; [|split; [|repeat split; congruence]].
      * exists (l1 ++ l1'). split; [rewrite H1', H1, app_assoc; reflexivity|].
        apply Forall_app. now split.
      * exists (l2 ++ l2'). split; [rewrite H2', H2, app_assoc; reflexivity|].
        apply Forall_app. now split.
    + split; [exists l1; now split|]. split; [exists l2; now split|].
      repeat split; assumption.
Qed.

(** ** The two protocols, over a whole call *)

Lemma gather_step_emits (c : call) (ev : event) :
  (exists added,
     openai_ws_sent (vars (gather_step c ev)) = openai_ws_sent (vars c) ++ added /\
     Forall (fun v => is_audio_append v \/ is_truncate v) added) /\
  (exists added,
     websocket_sent (vars (gather_step c ev)) = websocket_sent (vars c) ++ added /\
     Forall is_caller_frame added).
Proof.
  assert (Hnil : forall (P : json -> Prop) (l : list json),
             exists added, l = l ++ added /\ Forall P added).
  { intros P l. exists []. rewrite app_nil_r. split; [reflexivity | constructor]. }
  destruct ev as [item|item]; cbn [gather_step].
  - destruct (receive_from_twilio_status c); [|split; apply Hnil].
    destruct (receive_from_twilio_next_emits item (vars c)) as [(l & H & HP) Hcaller].
    destruct (receive_from_twilio_next item (vars c)) as [st s']. cbn [vars snd] in *.
    split.
    + exists l. split; [exact H|]. eapply Forall_impl; [|exact HP]. intros v Hv. now left.
    + rewrite Hcaller. apply Hnil.
  - destruct (send_to_twilio_status c); [|split; apply Hnil].
    destruct (send_to_twilio_next_emits item (vars c)) as [(l & H & HP) Hcaller].
    destruct (send_to_twilio_next item (vars c)) as [st s']. cbn [vars snd] in *.
    split; [|exact Hcaller].
    exists l. split; [exact H|]. eapply Forall_impl; [|exact HP]. intros v Hv. now right.
Qed.

Lemma gather_emits (evs : list event) (c : call) :
  (exists added,
     openai_ws_sent (vars (gather evs c)) = openai_ws_sent (vars c) ++ added /\
     Forall (fun v => is_audio_append v \/ is_truncate v) added) /\
  (exists added,
     websocket_sent (vars (gather evs c)) = websocket_sent (vars c) ++ added /\
     Forall is_caller_frame added).
Proof.
  revert c. induction evs as [|ev evs IH]; intros c; cbn [gather fold_left].
  - split; exists []; rewrite app_nil_r; (split; [reflexivity | constructor]).
  - destruct (gather_step_emits c ev) as [(l1 & H1 & HP1) (l2 & H2 & HP2)].
    destruct (IH (gather_step c ev)) as [(l1' & H1' & HP1') (l2' & H2' & HP2')].
    fold (gather evs (gather_step c ev)). split.
    + exists (l1 ++ l1'). split; [rewrite H1', H1, app_assoc; reflexivity|].
      apply Forall_app. now split.
    + exists (l2 ++ l2'). split; [rewrite H2', H2, app_assoc; reflexivity|].
      apply Forall_app. now split.
Qed.

(** X3: at every point of every call, what the relay has sent the model is
    the session.update command of [initialize_session] followed only by
    input_audio_buffer.append and conversation.item.truncate commands, so
    the session is configured first and exactly once; and what it has sent
    the caller consists only of media, mark and clear frames. *)
Theorem handle_media_stream_protocol (SYSTEM_MESSAGE : string) (evs : list event) :
  let s := vars (handle_media_stream SYSTEM_MESSAGE evs) in
  (exists commands,
     openai_ws_sent s = session_update SYSTEM_MESSAGE :: commands /\
     Forall (fun v => is_audio_append v \/ is_truncate v) commands /\
     ~ In (session_update SYSTEM_MESSAGE) commands) /\
  Forall is_caller_frame (websocket_sent s).
Proof.
  cbv zeta.
  destruct (gather_emits evs (mkCall (initial_session SYSTEM_MESSAGE) Running Running))
    as [(l1 & H1 & HP1) (l2 & H2 & HP2)].
  cbn [vars initial_session openai_ws_sent websocket_sent app] in H1, H2.
  assert (Hlogs :
            openai_ws_sent (vars (handle_media_stream SYSTEM_MESSAGE evs))
            = session_update SYSTEM_MESSAGE :: l1 /\
            websocket_sent (vars (handle_media_stream SYSTEM_MESSAGE evs)) = l2).
  { unfold handle_media_stream.
    set (c := gather evs (mkCall (initial_session SYSTEM_MESSAGE) Running Running)) in *.
    destruct (receive_from_twilio_status c), (send_to_twilio_status c); now split. }
  destruct Hlogs as [-> ->]. split; [|exact HP2].
  exists l1. split; [reflexivity|]. split; [exact HP1|].
  intros Hin. rewrite Forall_forall in HP1.
  destruct (HP1 _ Hin) as [[payload H] | [item [t H]]]; discriminate.
Qed.

(** ** The utterance and its start timestamp *)

Lemma send_to_twilio_body_start_has_utterance (m : text) (s : session) :
  start_has_utterance s -> start_has_utterance (snd (send_to_twilio_body m s)).
Proof.
  unfold start_has_utterance. intros H.
  unfold send_to_twilio_body, handle_speech_started_event, send_mark,
    bind, lift, gets, ret, modify, openai_ws_send, websocket_send_json.
  cbv beta iota.
  repeat (break_match; cbv beta iota; run_setters);
    try assumption;
    intros Ht;
    first [congruence
          | apply H; first [assumption | congruence]
          | now contradiction Ht
          | exfalso; specialize (H Ht); discriminate
          | match goal with
            | Hg : get ?a "item_id" = Return ?x, Hx : truthy ?x = true,
              Hi : getitem ?a "item_id" = Return ?y |- _ =>
                pose proof (get_truthy_getitem _ _ _ Hg Hx) as Hsame;
                rewrite Hi in Hsame; injection Hsame as ->; exact Hx
            end ].
Qed.

Lemma gather_step_start_has_utterance (c : call) (ev : event) :
  start_has_utterance (vars c) -> start_has_utterance (vars (gather_step c ev)).
Proof.
  intros H. destruct ev as [item|item]; cbn [gather_step].
  - destruct (receive_from_twilio_status c); [|exact H].
    destruct (receive_from_twilio_next_frame item (vars c)) as [Hitem Hstart].
    destruct (receive_from_twilio_next item (vars c)) as [st s']. cbn [vars snd] in *.
    unfold start_has_utterance in *. rewrite Hitem, Hstart. exact H.
  - destruct (send_to_twilio_status c); [|exact H].
    destruct item as [m| |]; cbn [send_to_twilio_next]; try exact H.
    pose proof (send_to_twilio_body_start_has_utterance m (vars c) H) as H'.
    destruct (send_to_twilio_body m (vars c)) as [[[]|e] s']; exact H'.
Qed.

(** X4: at every point of every call, [last_assistant_item] is set exactly
    when [response_start_timestamp_twilio] is: the two variables are
    assigned together by the audio-delta branch and cleared together by the
    barge-in handler, and nothing else in the relay writes them. *)
Theorem handle_media_stream_utterance_iff_start (SYSTEM_MESSAGE : string)
    (evs : list event) :
  let s := vars (handle_media_stream SYSTEM_MESSAGE evs) in
  truthy (last_assistant_item s) = true <-> response_start_timestamp_twilio s <> None.
Proof.
  cbv zeta. split; [apply handle_media_stream_utterance_has_start|].
  unfold handle_media_stream.
  assert (H : forall c, start_has_utterance (vars c) ->
                        start_has_utterance (vars (gather evs c))).
  { induction evs as [|ev evs IH]; intros c Hc; [exact Hc|].
    cbn [gather fold_left]. apply IH. now apply gather_step_start_has_utterance. }
  specialize (H (mkCall (initial_session SYSTEM_MESSAGE) Running Running)).
  cbn [vars] in H.
  assert (H0 : start_has_utterance (initial_session SYSTEM_MESSAGE)).
  { intros Ht. now contradiction Ht. }
  specialize (H H0).
  set (c := gather evs (mkCall (initial_session SYSTEM_MESSAGE) Running Running)) in *.
  destruct (receive_from_twilio_status c), (send_to_twilio_status c); exact H.
Qed.

(** ** Elapsed time under a caller clock that never goes back *)

Ltac two_types :=
  match goal with
  | H1 : py_eq ?v (JStr ?a) = true, H2 : py_eq ?v (JStr ?b) = true |- _ =>
      apply py_eq_JStr in H1; apply py_eq_JStr in H2; congruence
  end.

(** The only command the loop body of [send_to_twilio] can send the model
    is the truncation of the current item at the elapsed time. *)
Lemma send_to_twilio_body_sent (m : text) (s : session) :
  let s' := snd (send_to_twilio_body m s) in
  openai_ws_sent s' = openai_ws_sent s \/
  exists t0,
    response_start_timestamp_twilio s = Some t0 /\
    openai_ws_sent s'
    = openai_ws_sent s
      ++ [truncate_event (last_assistant_item s) (latest_media_timestamp s - t0)].
Proof.
  unfold send_to_twilio_body, handle_speech_started_event, send_mark,
    bind, lift, gets, ret, modify, openai_ws_send, websocket_send_json.
  cbv beta iota zeta.
  repeat (break_match; cbv beta iota; run_setters);
    first [ left; reflexivity
          | two_types
          | right; eexists; split; [eassumption | reflexivity]
          | right; eexists; split; reflexivity ].
Qed.

Lemma send_to_twilio_body_start (m : text) (s : session) :
  let s' := snd (send_to_twilio_body m s) in
  response_start_timestamp_twilio s' = response_start_timestamp_twilio s \/
  response_start_timestamp_twilio s' = Some (latest_media_timestamp s) \/
  response_start_timestamp_twilio s' = None.
Proof.
  unfold send_to_twilio_body, handle_speech_started_event, send_mark,
    bind, lift, gets, ret, modify, openai_ws_send, websocket_send_json.
  cbv beta iota zeta.
  repeat (break_match; cbv beta iota; run_setters);
    first [ left; reflexivity
          | right; left; reflexivity
          | right; right; reflexivity
          | left; assumption
          | right; right; assumption ].
Qed.

Lemma truncations_nonneg_app (l added : list json) :
  truncations_nonneg l ->
  (forall item t, In (truncate_event item t) added -> 0 <= t) ->
  truncations_nonneg (l ++ added).
Proof.
  intros Hl Hadded item t Hin. apply in_app_or in Hin as [Hin | Hin]; eauto.
Qed.

Lemma gather_step_elapsed_nonneg (c : call) (ev : event) :
  start_not_after_clock (vars c) ->
  truncations_nonneg (openai_ws_sent (vars c)) ->
  latest_media_timestamp (vars c) <= latest_media_timestamp (vars (gather_step c ev)) ->
  start_not_after_clock (vars (gather_step c ev)) /\
  truncations_nonneg (openai_ws_sent (vars (gather_step c ev))).
Proof.
  intros Hclock Hsent. destruct ev as [item|item]; cbn [gather_step].
  - destruct (receive_from_twilio_status c); [|now split].
    destruct (receive_from_twilio_next_frame item (vars c)) as [_ Hstart].
    destruct (receive_from_twilio_next_emits item (vars c)) as [(l & Hl & HP) _].
    destruct (receive_from_twilio_next item (vars c)) as [st s']. cbn [vars snd] in *.
    intros Hle. split.
    + intros t0 Ht0. rewrite Hstart in Ht0. specialize (Hclock t0 Ht0). lia.
    + rewrite Hl. apply truncations_nonneg_app; [exact Hsent|].
      intros it t Hin. rewrite Forall_forall in HP.
      destruct (HP _ Hin) as [payload H]. discriminate.
  - destruct (send_to_twilio_status c); [|now split].
    destruct item as [m| |]; cbn [send_to_twilio_next]; try now split.
    pose proof (send_to_twilio_body_sent m (vars c)) as Hs.
    pose proof (send_to_twilio_body_start m (vars c)) as Hr.
    destruct (send_to_twilio_body_keeps_caller_state m) as (_ & Hlatest & _).
    specialize (Hlatest (vars c)).
    assert (Hgoal : start_not_after_clock (snd (send_to_twilio_body m (vars c))) /\
                    truncations_nonneg
                      (openai_ws_sent (snd (send_to_twilio_body m (vars c))))).
    { cbv zeta in Hs, Hr. split.
      - intros t0 Ht0. rewrite Hlatest.
        destruct Hr as [Hr | [Hr | Hr]]; rewrite Hr in Ht0.
        + now apply Hclock.
        + injection Ht0 as <-. lia.
        + discriminate.
      - destruct Hs as [-> | (t0 & Ht0 & ->)]; [exact Hsent|].
        apply truncations_nonneg_app; [exact Hsent|].
        intros it t [Heq | []]. injection Heq as _ <-.
        specialize (Hclock t0 Ht0). lia. }
    destruct (send_to_twilio_body m (vars c)) as [[[]|e] s']; cbn [vars snd] in *;
      intros _; exact Hgoal.
Qed.

(** X5: in a call along which the caller clock [latest_media_timestamp]
    never goes back, no truncate command sent to the model carries a
    negative audio_end_ms. *)
Theorem elapsed_time_nonneg_when_clock_monotone (SYSTEM_MESSAGE : string)
    (evs : list event) :
  clock_monotone evs (mkCall (initial_session SYSTEM_MESSAGE) Running Running) ->
  forall item t,
    In (truncate_event item t)
       (openai_ws_sent (vars (handle_media_stream SYSTEM_MESSAGE evs))) ->
    0 <= t.
Proof.
  intros Hmono.
  assert (H : forall c,
             start_not_after_clock (vars c) ->
             truncations_nonneg (openai_ws_sent (vars c)) ->
             clock_monotone evs c ->
             truncations_nonneg (openai_ws_sent (vars (gather evs c)))).
  { clear Hmono. induction evs as [|ev evs IH]; intros c Hc Hs Hm; [exact Hs|].
    cbn [gather fold_left]. destruct Hm as [Hle Hm].
    destruct (gather_step_elapsed_nonneg c ev Hc Hs Hle) as [Hc' Hs'].
    apply IH; assumption. }
  specialize (H (mkCall (initial_session SYSTEM_MESSAGE) Running Running)).
  cbn [vars] in H.
  assert (Hsent : truncations_nonneg
                    (openai_ws_sent
                       (vars (gather evs
                                (mkCall (initial_session SYSTEM_MESSAGE) Running Running))))).
  { apply H; [| |exact Hmono].
    - intros t0 Ht0. discriminate.
    - intros it t [Heq | []]. discriminate. }
  unfold handle_media_stream.
  set (c := gather evs (mkCall (initial_session SYSTEM_MESSAGE) Running Running)) in *.
  destruct (receive_from_twilio_status c), (send_to_twilio_status c); exact Hsent.
Qed.

Lemma elapsed_time_nonneg_when_clock_monotone_witness :
  let evs := [Twilio (Message (Json (start_frame "MZ18")));
              Twilio (Message (Json (media_frame "1000" "fn5+")));
              OpenAI (Message (Json (output_audio_delta "a1" "SGVsbG8=")));
              Twilio (Message (Json (media_frame "1350" "fn5+")));
              OpenAI (Message (Json speech_started))] in
  In (truncate_event (JStr "a1") 350)
     (openai_ws_sent (vars (handle_media_stream "" evs))) /\
  0 <= 350.
Proof.
  cbv zeta. split.
  - vm_compute. right. right. right. left. reflexivity.
  - apply (elapsed_time_nonneg_when_clock_monotone ""
             [Twilio (Message (Json (start_frame "MZ18")));
              Twilio (Message (Json (media_frame "1000" "fn5+")));
              OpenAI (Message (Json (output_audio_delta "a1" "SGVsbG8=")));
              Twilio (Message (Json (media_frame "1350" "fn5+")));
              OpenAI (Message (Json speech_started))]
             ltac:(vm_compute; repeat split; discriminate)
             (JStr "a1") 350).
    vm_compute. right. right. right. left. reflexivity.
Defined.

(** ** Caller events: forwarding, malformed and unknown events *)

Lemma receive_from_twilio_body_media (data : json) (t : Z) (payload : json)
    (s : session) :
  is_media_frame data t payload ->
  openai_ws_open s = true ->
  receive_from_twilio_body (Json data) s
  = (Return tt,
     set_openai_ws_sent (openai_ws_sent s ++ [audio_append payload])
       (set_latest_media_timestamp t s)).
Proof.
  intros (Hev & media & timestamp & Hmedia & Hts & Hint & Hpayload) Hopen.
  unfold receive_from_twilio_body. simpl json_loads.
  run_lift (eq_refl (Return data)). run_lift Hev. run_state.
  rewrite Hopen. run_tests.
  run_lift Hmedia. run_lift Hts. run_lift Hint. run_state.
  run_lift Hmedia. run_lift Hpayload.
  unfold openai_ws_send. cbn. rewrite Hopen. reflexivity.
Qed.

Lemma last_cons_default {A : Type} (x : A) (l : list A) (d d' : A) :
  last (x :: l) d = last (x :: l) d'.
Proof.
  revert x. induction l as [|y l IH]; intros x; [reflexivity|].
  change (last (y :: l) d = last (y :: l) d'). apply IH.
Qed.

(** X6: well-formed caller media frames (a payload, and a timestamp that
    is an integer or an ASCII decimal string that [int] accepts) received
    while the model's socket is open are forwarded one for one, in the order
    received, each payload passed on as it came (it is neither decoded nor
    re-encoded); the caller clock ends at the timestamp of the last frame,
    and the pump keeps running. *)
Theorem media_frames_forwarded_in_order (frames : list (json * Z * json))
    (s : session) :
  Forall (fun f => is_media_frame (fst (fst f)) (frame_timestamp f) (frame_payload f))
    frames ->
  openai_ws_open s = true ->
  let r := receive_from_twilio (map frame_message frames) s in
  fst r = Running /\
  openai_ws_sent (snd r)
  = openai_ws_sent s ++ map (fun f => audio_append (frame_payload f)) frames /\
  latest_media_timestamp (snd r)
  = last (map frame_timestamp frames) (latest_media_timestamp s) /\
  openai_ws_open (snd r) = true.
Proof.
  intros Hframes. revert s.
  induction Hframes as [|[[data t] payload] frames Hf Hframes IH]; intros s Hopen.
  - cbn. rewrite app_nil_r. repeat split. exact Hopen.
  - cbn [fst snd frame_timestamp frame_payload] in Hf.
    cbn [map frame_message receive_from_twilio receive_from_twilio_next fst snd].
    rewrite (receive_from_twilio_body_media _ _ _ _ Hf Hopen).
    specialize (IH (set_openai_ws_sent (openai_ws_sent s ++ [audio_append payload])
                      (set_latest_media_timestamp t s)) Hopen).
    cbv zeta in IH. destruct IH as (Hrun & Hsent & Hclock & Hopen2).
    split; [exact Hrun|]. split; [|split; [|exact Hopen2]].
    + rewrite Hsent. cbn [openai_ws_sent set_openai_ws_sent map frame_payload snd].
      rewrite <- app_assoc. reflexivity.
    + rewrite Hclock.
      cbn [latest_media_timestamp set_openai_ws_sent set_latest_media_timestamp
             frame_timestamp fst snd].
      destruct frames as [|f rest]; [reflexivity|].
      cbn [map]. rewrite (last_cons_default _ _ t (latest_media_timestamp s)).
      reflexivity.
Qed.

Lemma media_frames_forwarded_in_order_witness :
  let r := receive_from_twilio
             [Message (Json (media_frame "1000" "fn5+"));
              Message (Json (media_frame "1020" "SGVsbG8="))]
             (initial_session "") in
  fst r = Running /\
  openai_ws_sent (snd r)
  = [session_update ""; audio_append (JStr "fn5+"); audio_append (JStr "SGVsbG8=")] /\
  latest_media_timestamp (snd r) = 1020 /\
  openai_ws_open (snd r) = true.
Proof.
  apply (media_frames_forwarded_in_order
           [(media_frame "1000" "fn5+", 1000, JStr "fn5+");
            (media_frame "1020" "SGVsbG8=", 1020, JStr "SGVsbG8=")]
           (initial_session "")).
  - repeat constructor; cbn.
    + exists (JDict [("timestamp", JStr "1000"); ("payload", JStr "fn5+")]), (JStr "1000").
      repeat split.
    + exists (JDict [("timestamp", JStr "1020"); ("payload", JStr "SGVsbG8=")]),
        (JStr "1020").
      repeat split.
  - reflexivity.
Defined.

Lemma receive_from_twilio_except_other (e : exn) (s : session) :
  e <> WebSocketDisconnect -> receive_from_twilio_except e s = (Return tt, s).
Proof.
  intros He. destruct e; try reflexivity. now contradiction He.
Qed.

Lemma media_timestamp_raises (data : json) (e : exn) :
  media_timestamp data = Raise e -> e <> WebSocketDisconnect.
Proof.
  unfold media_timestamp.
  destruct (getitem data "media") as [media|e1] eqn:Hmedia.
  - destruct (getitem media "timestamp") as [timestamp|e2] eqn:Hts.
    + intros [-> | ->]%int_raises; discriminate.
    + intros [= <-]. apply getitem_raises in Hts as [-> | ->]; discriminate.
  - intros [= <-]. apply getitem_raises in Hmedia as [-> | ->]; discriminate.
Qed.

(** X7: a caller media event that cannot be read ends the inbound pump,
    and how far the event got depends on what is missing.  When the
    timestamp is missing or does not convert to an integer (for a timestamp
    that is a string, one of ASCII characters), the state of the call is
    left as it was.  When the timestamp converts but the payload is missing,
    the caller clock has already been moved to the timestamp; nothing is
    sent to the model in either case. *)
Theorem media_event_malformed (data : json) (s : session) :
  get data "event" = Return (JStr "media") ->
  openai_ws_open s = true ->
  (forall e, media_timestamp data = Raise e ->
             media_timestamp_ascii data = true ->
             receive_from_twilio_next (Message (Json data)) s = (Done, s)) /\
  (forall t e, media_timestamp data = Return t ->
               media_payload data = Raise e ->
               receive_from_twilio_next (Message (Json data)) s
               = (Done, set_latest_media_timestamp t s)).
Proof.
  intros Hev Hopen.
  assert (Hbody : receive_from_twilio_body (Json data) s =
                  match media_timestamp data with
                  | Raise e => (Raise e, s)
                  | Return t =>
                      match media_payload data with
                      | Raise e => (Raise e, set_latest_media_timestamp t s)
                      | Return payload =>
                          (Return tt,
                           set_openai_ws_sent (openai_ws_sent s ++ [audio_append payload])
                             (set_latest_media_timestamp t s))
                      end
                  end).
  { unfold receive_from_twilio_body. simpl json_loads.
    run_lift (eq_refl (Return data)). run_lift Hev. run_state.
    rewrite Hopen. run_tests.
    unfold media_timestamp, media_payload, bind, lift, modify, openai_ws_send.
    destruct (getitem data "media") as [media|e1]; [|reflexivity].
    destruct (getitem media "timestamp") as [timestamp|e2]; [|reflexivity].
    destruct (int timestamp) as [t|e3]; [|reflexivity].
    destruct (getitem media "payload") as [payload|e4]; [|reflexivity].
    cbn. rewrite Hopen. reflexivity. }
  split.
  - intros e He _. cbn [receive_from_twilio_next]. rewrite Hbody, He.
    rewrite (receive_from_twilio_except_other e s (media_timestamp_raises _ _ He)).
    reflexivity.
  - intros t e Ht He. cbn [receive_from_twilio_next]. rewrite Hbody, Ht, He.
    rewrite receive_from_twilio_except_other; [reflexivity|].
    unfold media_payload in He.
    destruct (getitem data "media") as [media|e1] eqn:Hmedia.
    + apply getitem_raises in He as [-> | ->]; discriminate.
    + injection He as <-. apply getitem_raises in Hmedia as [-> | ->]; discriminate.
Qed.

Lemma media_event_malformed_witness :
  let no_timestamp :=
    JDict [("event", JStr "media"); ("media", JDict [("payload", JStr "fn5+")])] in
  let no_payload :=
    JDict [("event", JStr "media"); ("media", JDict [("timestamp", JStr "1350")])] in
  receive_from_twilio_next (Message (Json no_timestamp)) (initial_session "")
  = (Done, initial_session "") /\
  receive_from_twilio_next (Message (Json (media_frame "13:50" "fn5+"))) (initial_session "")
  = (Done, initial_session "") /\
  receive_from_twilio_next (Message (Json no_payload)) (initial_session "")
  = (Done, set_latest_media_timestamp 1350 (initial_session "")).
Proof.
  split; [|split].
  - apply (proj1 (media_event_malformed
                    (JDict [("event", JStr "media");
                            ("media", JDict [("payload", JStr "fn5+")])])
                    (initial_session "") eq_refl eq_refl) KeyError).
    + reflexivity.
    + reflexivity.
  - apply (proj1 (media_event_malformed (media_frame "13:50" "fn5+")
                    (initial_session "") eq_refl eq_refl) ValueError).
    + reflexivity.
    + reflexivity.
  - apply (proj2 (media_event_malformed
                    (JDict [("event", JStr "media");
                            ("media", JDict [("timestamp", JStr "1350")])])
                    (initial_session "") eq_refl eq_refl) 1350 KeyError).
    + reflexivity.
    + reflexivity.
Defined.

(** X8: a caller 'start' event that carries no stream id (no "start"
    object, or no "streamSid" in it) ends the inbound pump and leaves the
    state of the call as it was: [stream_sid] keeps its value and the caller
    clock is not reset. *)
Theorem start_event_malformed (data : json) (e : exn) (s : session) :
  get data "event" = Return (JStr "start") ->
  start_stream_sid data = Raise e ->
  receive_from_twilio_next (Message (Json data)) s = (Done, s).
Proof.
  intros Hev Hsid.
  assert (Hbody : receive_from_twilio_body (Json data) s = (Raise e, s)).
  { unfold receive_from_twilio_body. simpl json_loads.
    run_lift (eq_refl (Return data)). run_lift Hev. run_state. run_tests.
    run_lift Hev. run_tests.
    unfold start_stream_sid in Hsid. unfold bind, lift.
    destruct (getitem data "start") as [start|e1]; [|congruence].
    rewrite Hsid. reflexivity. }
  cbn [receive_from_twilio_next]. rewrite Hbody.
  rewrite receive_from_twilio_except_other; [reflexivity|].
  unfold start_stream_sid in Hsid.
  destruct (getitem data "start") as [start|e1] eqn:Hstart.
  - apply getitem_raises in Hsid as [-> | ->]; discriminate.
  - injection Hsid as <-. apply getitem_raises in Hstart as [-> | ->]; discriminate.
Qed.

Lemma start_event_malformed_witness :
  receive_from_twilio_next
    (Message (Json (JDict [("event", JStr "start"); ("start", JDict [])])))
    (playing (JStr "a1") 1000 1350 ["responsePart"])
  = (Done, playing (JStr "a1") 1000 1350 ["responsePart"]).
Proof.
  apply (start_event_malformed
           (JDict [("event", JStr "start"); ("start", JDict [])]) KeyError
           (playing (JStr "a1") 1000 1350 ["responsePart"])); reflexivity.
Defined.

(** X9: a caller event that is neither 'media', 'start' nor 'mark' (a
    'stop' or 'connected' event, an event of another name, or an object
    without an "event" key) changes nothing, sends nothing and leaves the
    inbound pump running: in particular a 'stop' event does not end the
    call. *)
Theorem caller_event_of_other_kind_ignored (data event : json) (s : session) :
  get data "event" = Return event ->
  event <> JStr "media" ->
  event <> JStr "start" ->
  event <> JStr "mark" ->
  receive_from_twilio_next (Message (Json data)) s = (Running, s).
Proof.
  intros Hev Hmedia Hstart Hmark.
  assert (Hne : forall lit, event <> JStr lit -> py_eq event (JStr lit) = false).
  { intros lit H. destruct (py_eq event (JStr lit)) eqn:E; [|reflexivity].
    apply py_eq_JStr in E. contradiction. }
  cbn [receive_from_twilio_next].
  unfold receive_from_twilio_body. simpl json_loads.
  run_lift (eq_refl (Return data)). run_lift Hev. run_state.
  rewrite (Hne _ Hmedia). cbn [andb].
  run_lift Hev. rewrite (Hne _ Hstart).
  run_lift Hev. rewrite (Hne _ Hmark). reflexivity.
Qed.

Lemma caller_event_of_other_kind_ignored_witness :
  receive_from_twilio_next
    (Message (Json (JDict [("event", JStr "stop"); ("streamSid", JStr "MZ18")])))
    (playing (JStr "a1") 1000 1350 ["responsePart"])
  = (Running, playing (JStr "a1") 1000 1350 ["responsePart"]).
Proof.
  apply (caller_event_of_other_kind_ignored
           (JDict [("event", JStr "stop"); ("streamSid", JStr "MZ18")]) (JStr "stop")
           (playing (JStr "a1") 1000 1350 ["responsePart"]) eq_refl);
    discriminate.
Defined.

(** X10: a message that is valid JSON but not an object (an array, a
    string, a number, true, false or null) ends the pump that receives it,
    on either connection, and leaves the state of the call as it was. *)
Theorem non_object_message_ends_pump (v : json) (s : session) :
  (forall items, v <> JDict items) ->
  receive_from_twilio_next (Message (Json v)) s = (Done, s) /\
  send_to_twilio_next (Message (Json v)) s = (Done, s).
Proof.
  intros Hv.
  assert (Hget : forall k, get v k = Raise AttributeError).
  { intros k. destruct v; try reflexivity. now contradiction (Hv items). }
  split.
  - cbn [receive_from_twilio_next]. unfold receive_from_twilio_body, bind, lift.
    cbn [json_loads]. rewrite Hget. reflexivity.
  - cbn [send_to_twilio_next]. unfold send_to_twilio_body, bind, lift.
    cbn [json_loads]. rewrite Hget. reflexivity.
Qed.

Lemma non_object_message_ends_pump_witness :
  receive_from_twilio_next (Message (Json (JList [JStr "media"]))) (initial_session "")
  = (Done, initial_session "") /\
  send_to_twilio_next (Message (Json (JList [JStr "media"]))) (initial_session "")
  = (Done, initial_session "").
Proof.
  apply (non_object_message_ends_pump (JList [JStr "media"]) (initial_session "")).
  intros items. discriminate.
Defined.

(** ** Model events: unknown events and deltas that cannot be delivered *)

Lemma py_eq_JStr_neq (v : json) (lit : string) :
  v <> JStr lit -> py_eq v (JStr lit) = false.
Proof.
  intros H. destruct (py_eq v (JStr lit)) eqn:E; [|reflexivity].
  apply py_eq_JStr in E. contradiction.
Qed.

(** X11: a model event that is not a speech-started event, and that is
    either not an audio delta or an audio delta without a "delta" key (an
    error event, a transcript, session.created, ...), changes nothing, sends
    nothing and leaves the outbound pump running. *)
Theorem model_event_of_other_kind_ignored (response type : json) (s : session) :
  get response "type" = Return type ->
  type <> JStr "input_audio_buffer.speech_started" ->
  type <> JStr "response.output_audio.delta" \/ contains "delta" response = Return false ->
  send_to_twilio_next (Message (Json response)) s = (Running, s).
Proof.
  intros Hty Hspeech Hdelta.
  cbn [send_to_twilio_next]. unfold send_to_twilio_body. simpl json_loads.
  run_lift (eq_refl (Return response)). run_lift Hty. run_lift Hty.
  assert (Hno : bind (if py_eq type (JStr "response.output_audio.delta")
                      then lift (contains "delta" response)
                      else ret false)
                  (fun has_delta => ret has_delta) s = (Return false, s)).
  { destruct Hdelta as [Hne | Hnone].
    - rewrite (py_eq_JStr_neq _ _ Hne). reflexivity.
    - destruct (py_eq type (JStr "response.output_audio.delta"));
        [rewrite Hnone|]; reflexivity. }
  unfold bind in Hno |- *.
  destruct ((if py_eq type (JStr "response.output_audio.delta")
             then lift (contains "delta" response)
             else ret false) s) as [[b|e] s1]; [|discriminate].
  injection Hno as -> ->.
  unfold ret at 1. unfold lift. rewrite Hty, (py_eq_JStr_neq _ _ Hspeech).
  reflexivity.
Qed.

Lemma model_event_of_other_kind_ignored_witness :
  let error_event :=
    JDict [("type", JStr "error"); ("error", JDict [("message", JStr "rate limit")])] in
  let empty_delta :=
    JDict [("type", JStr "response.output_audio.delta"); ("item_id", JStr "a2")] in
  let s := playing (JStr "a1") 1000 1350 ["responsePart"] in
  send_to_twilio_next (Message (Json error_event)) s = (Running, s) /\
  send_to_twilio_next (Message (Json empty_delta)) s = (Running, s).
Proof.
  split.
  - apply (model_event_of_other_kind_ignored
             (JDict [("type", JStr "error");
                     ("error", JDict [("message", JStr "rate limit")])])
             (JStr "error") (playing (JStr "a1") 1000 1350 ["responsePart"]) eq_refl).
    + discriminate.
    + left. discriminate.
  - apply (model_event_of_other_kind_ignored
             (JDict [("type", JStr "response.output_audio.delta"); ("item_id", JStr "a2")])
             (JStr "response.output_audio.delta")
             (playing (JStr "a1") 1000 1350 ["responsePart"]) eq_refl).
    + discriminate.
    + right. reflexivity.
Defined.

(** X12: an audio delta that cannot be delivered ends the outbound pump and
    leaves the state of the call as it was, so that its item does not become
    the current utterance: this is the case when the delta does not decode
    (it is not a string, is not ASCII or is not base64), and when it decodes
    but the caller's socket no longer accepts frames. *)
Theorem audio_delta_undeliverable (response delta : json) (s : session) :
  get response "type" = Return (JStr "response.output_audio.delta") ->
  getitem response "delta" = Return delta ->
  (forall e, b64decode delta = Raise e ->
             send_to_twilio_next (Message (Json response)) s = (Done, s)) /\
  (forall decoded, b64decode delta = Return decoded ->
                   websocket_open s = false ->
                   send_to_twilio_next (Message (Json response)) s = (Done, s)).
Proof.
  intros Hty Hdelta. split.
  - intros e He. cbn [send_to_twilio_next].
    unfold send_to_twilio_body, bind, lift, gets, ret.
    cbn [json_loads]. rewrite Hty. run_tests.
    rewrite (getitem_contains _ _ _ Hdelta), Hdelta, He. reflexivity.
  - intros decoded Hdec Hws. cbn [send_to_twilio_next].
    unfold send_to_twilio_body, bind, lift, gets, ret.
    cbn [json_loads]. rewrite Hty. run_tests.
    rewrite (getitem_contains _ _ _ Hdelta), Hdelta, Hdec.
    unfold websocket_send_json at 1. rewrite Hws. reflexivity.
Qed.

Lemma audio_delta_undeliverable_witness :
  let s := playing (JStr "a1") 1000 1350 ["responsePart"] in
  send_to_twilio_next (Message (Json (output_audio_delta "a2" "SGVsbG8"))) s = (Done, s) /\
  send_to_twilio_next (Message (Json (output_audio_delta "a2" "SGVsbG8=")))
    (set_websocket_open false s)
  = (Done, set_websocket_open false s).
Proof.
  split.
  - apply (proj1 (audio_delta_undeliverable (output_audio_delta "a2" "SGVsbG8")
                    (JStr "SGVsbG8") (playing (JStr "a1") 1000 1350 ["responsePart"])
                    eq_refl eq_refl) BinasciiError).
    reflexivity.
  - apply (proj2 (audio_delta_undeliverable (output_audio_delta "a2" "SGVsbG8=")
                    (JStr "SGVsbG8=")
                    (set_websocket_open false
                       (playing (JStr "a1") 1000 1350 ["responsePart"]))
                    eq_refl eq_refl) hello).
    + reflexivity.
    + reflexivity.
Defined.

(** X13: for every audio delta that decodes, canonical or not, the payload
    of the media frame sent to the caller is a canonical base64 string that
    decodes to the same bytes: the relay may rewrite the encoding, never the
    audio. *)
Theorem audio_delta_preserves_audio (response delta : json) (decoded : list byte)
    (s : session) :
  get response "type" = Return (JStr "response.output_audio.delta") ->
  getitem response "delta" = Return delta ->
  b64decode delta = Return decoded ->
  websocket_open s = true ->
  exists payload rest,
    websocket_sent (snd (send_to_twilio_body (Json response) s))
    = websocket_sent s ++ audio_delta (stream_sid s) payload :: rest /\
    canonical_base64 payload /\
    b64decode (JStr payload) = Return decoded.
Proof.
  intros Hty Hdelta Hdec Hws.
  destruct (get_total _ _ _ "item_id" Hty) as [item Hitem].
  rewrite (send_to_twilio_body_audio_delta _ _ _ _ _ Hty Hdelta Hdec Hitem Hws).
  exists (b64encode decoded).
  exists (if truthy (stream_sid s) then [mark_event (stream_sid s)] else []).
  split; [reflexivity|]. split.
  - exists decoded. reflexivity.
  - apply b64decode_b64encode.
Qed.

Lemma audio_delta_preserves_audio_witness :
  exists payload rest,
    websocket_sent
      (snd (send_to_twilio_body (Json (output_audio_delta "a1" "SGVs bG9="))
              (playing JNull 0 0 [])))
    = audio_delta (JStr "MZ18") payload :: rest /\
    canonical_base64 payload /\
    b64decode (JStr payload) = Return hello.
Proof.
  apply (audio_delta_preserves_audio (output_audio_delta "a1" "SGVs bG9=")
           (JStr "SGVs bG9=") hello (playing JNull 0 0 [])); reflexivity.
Defined.

(** ** Barge-in: closed sockets and repeated events *)

Lemma send_to_twilio_body_speech_started (response : json) (s : session) :
  get response "type" = Return (JStr "input_audio_buffer.speech_started") ->
  send_to_twilio_body (Json response) s
  = if truthy (last_assistant_item s)
    then handle_speech_started_event s
    else (Return tt, s).
Proof.
  intros Hty. unfold send_to_twilio_body. simpl json_loads.
  run_lift (eq_refl (Return response)). run_lift Hty. run_lift Hty.
  run_tests. unfold bind at 1. unfold ret at 1.
  unfold bind at 1. unfold ret at 1.
  run_lift Hty. run_tests. run_state.
  destruct (truthy (last_assistant_item s)); reflexivity.
Qed.



(** When [handle_speech_started_event] returns, either it did nothing or
    it has cleared the current item. *)
Lemma handle_speech_started_event_returns (s s1 : session) :
  handle_speech_started_event s = (Return tt, s1) ->
  s1 = s \/ last_assistant_item s1 = JNull.
Proof.
  unfold handle_speech_started_event, bind, gets, ret, modify,
    openai_ws_send, websocket_send_json.
  cbv beta iota zeta.
  repeat (break_match; cbv beta iota; run_setters);
    intros H; try discriminate; injection H as <-;
    first [left; reflexivity | right; reflexivity].
Qed.

(** X15: barge-in is idempotent: when a speech-started event has been
    handled without error, a second speech-started event handled right after
    it sends nothing and changes nothing. *)
Theorem speech_started_twice (response response2 : json) (s s1 : session) :
  get response "type" = Return (JStr "input_audio_buffer.speech_started") ->
  get response2 "type" = Return (JStr "input_audio_buffer.speech_started") ->
  send_to_twilio_body (Json response) s = (Return tt, s1) ->
  send_to_twilio_body (Json response2) s1 = (Return tt, s1).
Proof.
  intros Hty Hty2 Hfirst.
  rewrite (send_to_twilio_body_speech_started _ _ Hty) in Hfirst.
  rewrite (send_to_twilio_body_speech_started _ _ Hty2).
  destruct (truthy (last_assistant_item s)) eqn:Hitem.
  - destruct (handle_speech_started_event_returns _ _ Hfirst) as [-> | Hcleared].
    + rewrite Hitem. exact Hfirst.
    + rewrite Hcleared. reflexivity.
  - injection Hfirst as <-. rewrite Hitem. reflexivity.
Qed.

Lemma speech_started_twice_witness :
  let s := playing (JStr "a1") 1000 1350 ["responsePart"] in
  let s1 := snd (send_to_twilio_body (Json speech_started) s) in
  openai_ws_sent s1 = [truncate_event (JStr "a1") 350] /\
  send_to_twilio_body (Json speech_started) s1 = (Return tt, s1).
Proof.
  cbv zeta. split; [reflexivity|].
  apply (speech_started_twice speech_started speech_started
           (playing (JStr "a1") 1000 1350 ["responsePart"]) _ eq_refl eq_refl).
  vm_compute. reflexivity.
Defined.



(** ** Acknowledging marks *)

Lemma receive_from_twilio_body_mark (data : json) (s : session) :
  get data "event" = Return (JStr "mark") ->
  receive_from_twilio_body (Json data) s
  = (Return tt, set_mark_queue (tl (mark_queue s)) s).
Proof.
  intros Hev. unfold receive_from_twilio_body. simpl json_loads.
  run_lift (eq_refl (Return data)).
  run_lift Hev. run_state. run_tests.
  run_lift Hev. run_tests.
  run_lift Hev. run_tests.
  rewrite bind_gets. destruct s as [sid latest item q start loc o w so ws].
  destruct q; reflexivity.
Qed.

(** X17: any number of caller 'mark' events, handled in a row, remove that
    many marks from the front of the queue, oldest first, and nothing else
    changes; once the queue is empty the further events are no-ops, and the
    pump keeps running throughout. *)
Theorem mark_events_drop_oldest (acks : list json) (s : session) :
  Forall (fun data => get data "event" = Return (JStr "mark")) acks ->
  receive_from_twilio (map (fun data => Message (Json data)) acks) s
  = (Running, set_mark_queue (skipn (List.length acks) (mark_queue s)) s).
Proof.
  intros Hacks. revert s.
  induction Hacks as [|data acks Hev Hacks IH]; intros s.
  - cbn. destruct s; reflexivity.
  - cbn [map receive_from_twilio receive_from_twilio_next List.length].
    rewrite (receive_from_twilio_body_mark _ _ Hev), IH.
    destruct s as [sid latest item q start loc o w so ws].
    unfold set_mark_queue. cbn. destruct q as [|m q]; cbn [tl].
    + rewrite skipn_nil. reflexivity.
    + reflexivity.
Qed.

Lemma mark_events_drop_oldest_witness :
  let ack := JDict [("event", JStr "mark"); ("mark", JDict [("name", JStr "responsePart")])] in
  let s := playing (JStr "a1") 1000 1350 ["responsePart"; "responsePart"] in
  receive_from_twilio [Message (Json ack); Message (Json ack); Message (Json ack)] s
  = (Running, playing (JStr "a1") 1000 1350 []).
Proof.
  apply (mark_events_drop_oldest
           [JDict [("event", JStr "mark"); ("mark", JDict [("name", JStr "responsePart")])];
            JDict [("event", JStr "mark"); ("mark", JDict [("name", JStr "responsePart")])];
            JDict [("event", JStr "mark"); ("mark", JDict [("name", JStr "responsePart")])]]
           (playing (JStr "a1") 1000 1350 ["responsePart"; "responsePart"])).
  repeat constructor.
Defined.

(** ** Loading the API key *)

(** X18: the API key is taken from the Streamlit secrets whenever they
    yield a non-empty value, whatever the environment holds; otherwise it is
    taken from the environment, but only when python-dotenv could be loaded
    and the variable is set to a non-empty string; in every other case the
    import of the module fails with ValueError.  A key that is loaded is
    therefore never empty. *)
Theorem load_openai_api_key_cases (streamlit : option json)
    (dotenv : option (option string)) :
  (forall v, streamlit = Some v -> truthy v = true ->
             load_openai_api_key streamlit dotenv = Return (v, JStr "streamlit")) /\
  (forall k, (streamlit = None \/ exists v, streamlit = Some v /\ truthy v = false) ->
             dotenv = Some (Some k) -> k <> "" ->
             load_openai_api_key streamlit dotenv = Return (JStr k, JStr "env")) /\
  ((streamlit = None \/ exists v, streamlit = Some v /\ truthy v = false) ->
   (dotenv = None \/ dotenv = Some None \/ dotenv = Some (Some "")) ->
   load_openai_api_key streamlit dotenv = Raise ValueError) /\
  (forall key source, load_openai_api_key streamlit dotenv = Return (key, source) ->
                      truthy key = true).
Proof.
  split; [|split; [|split]].
  - intros v -> Hv. unfold load_openai_api_key. rewrite Hv. cbn. rewrite Hv.
    reflexivity.
  - intros k Hst -> Hk. unfold load_openai_api_key, of_getenv.
    assert (Hkey : truthy (JStr k) = true) by now apply truthy_JStr.
    remember (JStr k) as key eqn:Hdef.
    destruct Hst as [-> | (v & -> & Hv)].
    + cbn. rewrite Hkey. reflexivity.
    + rewrite Hv. cbn. rewrite Hkey. reflexivity.
  - intros Hst Hd. unfold load_openai_api_key.
    destruct Hst as [-> | (v & -> & Hv)]; [|rewrite Hv];
      destruct Hd as [-> | [-> | ->]]; cbn; rewrite ?Hv; reflexivity.
  - intros key source H. unfold load_openai_api_key, of_getenv in H.
    repeat (match type of H with
            | context [match ?x with _ => _ end] =>
                lazymatch x with
                | context [match _ with _ => _ end] => fail
                | _ => destruct x eqn:?
                end
            end; cbv beta iota in H);
      try discriminate;
      injection H as <- <-.
    all: first [ assumption
               | match goal with
                 | E : negb (truthy ?k) = false |- truthy ?k = true =>
                     now apply negb_false_iff in E
                 end ].
Qed.

Lemma load_openai_api_key_cases_witness :
  load_openai_api_key (Some (JStr "sk-streamlit")) (Some (Some "sk-env"))
  = Return (JStr "sk-streamlit", JStr "streamlit") /\
  load_openai_api_key (Some JNull) (Some (Some "sk-env"))
  = Return (JStr "sk-env", JStr "env") /\
  load_openai_api_key None None = Raise ValueError.
Proof.
  split; [|split].
  - apply (proj1 (load_openai_api_key_cases (Some (JStr "sk-streamlit"))
                    (Some (Some "sk-env"))) (JStr "sk-streamlit") eq_refl eq_refl).
  - apply (proj1 (proj2 (load_openai_api_key_cases (Some JNull) (Some (Some "sk-env"))))
             "sk-env").
    + right. exists JNull. split; reflexivity.
    + reflexivity.
    + discriminate.
  - apply (proj1 (proj2 (proj2 (load_openai_api_key_cases None None)))).
    + left. reflexivity.
    + left. reflexivity.
Defined.

(** ** Pending marks *)

Lemma send_to_twilio_body_marks_accounted (m : text) (s : session) :
  marks_accounted s -> marks_accounted (snd (send_to_twilio_body m s)).
Proof.
  unfold marks_accounted. intros [Hnames Hcount].
  unfold send_to_twilio_body, handle_speech_started_event, send_mark,
    bind, lift, gets, ret, modify, openai_ws_send, websocket_send_json.
  cbv beta iota zeta.
  repeat (break_match; cbv beta iota; run_setters);
    try two_types;
    try match goal with
        | H : mark_queue s = _ |- _ => rewrite H
        end;
    (split;
     [ repeat first [ assumption
                    | constructor
                    | apply Forall_app; split
                    | reflexivity ]
     | rewrite ?filter_app, ?length_app; cbn; cbn in Hcount; lia ]).
Qed.

Lemma receive_from_twilio_body_mark_queue (m : text) (s : session) :
  mark_queue (snd (receive_from_twilio_body m s)) = mark_queue s \/
  mark_queue (snd (receive_from_twilio_body m s)) = tl (mark_queue s).
Proof.
  unfold receive_from_twilio_body,
    bind, lift, gets, ret, modify, openai_ws_send.
  cbv beta iota zeta.
  repeat (break_match; cbv beta iota; run_setters);
    first [ left; reflexivity
          | right; reflexivity
          | left; assumption
          | right;
            match goal with
            | H : mark_queue s = _ |- _ => rewrite H; reflexivity
            end ].
Qed.

Lemma receive_from_twilio_body_marks_accounted (m : text) (s : session) :
  marks_accounted s -> marks_accounted (snd (receive_from_twilio_body m s)).
Proof.
  unfold marks_accounted. intros [Hnames Hcount].
  destruct (receive_from_twilio_body_emits m) as [_ Hcaller].
  rewrite (Hcaller s). clear Hcaller.
  destruct (receive_from_twilio_body_mark_queue m s) as [-> | ->];
    [now split|].
  destruct (mark_queue s) as [|name q]; [now split|].
  cbn [tl]. inversion Hnames; subst. cbn in Hcount. split; [assumption | lia].
Qed.

Lemma gather_step_marks_accounted (c : call) (ev : event) :
  marks_accounted (vars c) -> marks_accounted (vars (gather_step c ev)).
Proof.
  intros H. destruct ev as [item|item]; cbn [gather_step].
  - destruct (receive_from_twilio_status c); [|exact H].
    destruct item as [m| |]; cbn [receive_from_twilio_next vars].
    + pose proof (receive_from_twilio_body_marks_accounted m (vars c) H) as H'.
      destruct (receive_from_twilio_body m (vars c)) as [[[]|e] s']; cbn [snd] in *.
      * exact H'.
      * destruct e; exact H' || (cbn; destruct (openai_ws_open s'); exact H').
    + exact H.
    + exact H.
  - destruct (send_to_twilio_status c); [|exact H].
    destruct item as [m| |]; cbn [send_to_twilio_next vars]; try exact H.
    pose proof (send_to_twilio_body_marks_accounted m (vars c) H) as H'.
    destruct (send_to_twilio_body m (vars c)) as [[[]|e] s']; exact H'.
Qed.

(** X19: at every point of every call, every pending mark in [mark_queue]
    is the name 'responsePart', and the queue never holds more marks than
    mark requests have been sent to the caller: a mark is queued only
    together with its request, and acknowledgements and barge-ins only
    remove marks. *)
Theorem handle_media_stream_marks_accounted (SYSTEM_MESSAGE : string)
    (evs : list event) :
  let s := vars (handle_media_stream SYSTEM_MESSAGE evs) in
  Forall (fun name => name = "responsePart") (mark_queue s) /\
  (List.length (mark_queue s)
   <= List.length (filter is_mark_frame (websocket_sent s)))%nat.
Proof.
  cbv zeta. change (marks_accounted (vars (handle_media_stream SYSTEM_MESSAGE evs))).
  unfold handle_media_stream.
  assert (H : forall c, marks_accounted (vars c) ->
                        marks_accounted (vars (gather evs c))).
  { induction evs as [|ev evs IH]; intros c Hc; [exact Hc|].
    cbn [gather fold_left]. apply IH. now apply gather_step_marks_accounted. }
  specialize (H (mkCall (initial_session SYSTEM_MESSAGE) Running Running)).
  cbn [vars] in H.
  assert (H0 : marks_accounted (initial_session SYSTEM_MESSAGE)).
  { split; [constructor | cbn; lia]. }
  specialize (H H0).
  set (c := gather evs (mkCall (initial_session SYSTEM_MESSAGE) Running Running)) in *.
  destruct (receive_from_twilio_status c), (send_to_twilio_status c); exact H.
Qed.

(** ** After the end of a connection *)

Lemma receive_from_twilio_body_model_closed (m : text) (s : session) :
  openai_ws_open s = false ->
  openai_ws_sent (snd (receive_from_twilio_body m s)) = openai_ws_sent s.
Proof.
  intros Hclosed.
  unfold receive_from_twilio_body,
    bind, lift, gets, ret, modify, openai_ws_send.
  cbv beta iota zeta.
  repeat (break_match; cbv beta iota; run_setters);
    first [ reflexivity
          | discriminate
          | match goal with
            | E : _ && openai_ws_open s = true |- _ =>
                rewrite Hclosed, andb_false_r in E; discriminate
            end ].
Qed.

Lemma receive_from_twilio_next_wound_down (item : stream_item) (s : session) :
  openai_ws_open s = false ->
  let s' := snd (receive_from_twilio_next item s) in
  openai_ws_open s' = false /\
  openai_ws_sent s' = openai_ws_sent s /\
  websocket_sent s' = websocket_sent s /\
  (websocket_open s = false -> websocket_open s' = false).
Proof.
  intros Hclosed. cbv zeta.
  destruct (receive_from_twilio_next_emits item s) as [_ Hcaller].
  split; [|split; [|split; [exact Hcaller|]]]; clear Hcaller;
    destruct item as [m| |]; cbn [receive_from_twilio_next snd].
  - destruct (receive_from_twilio_body_keeps_sockets m) as [Hmodel _].
    specialize (Hmodel s).
    destruct (receive_from_twilio_body m s) as [[[]|e] s1]; cbn [snd] in *.
    + congruence.
    + rewrite Hclosed in Hmodel.
      destruct e; cbn; rewrite ?Hmodel; try assumption; reflexivity.
  - exact Hclosed.
  - exact Hclosed.
  - pose proof (receive_from_twilio_body_model_closed m s Hclosed) as Hsent.
    destruct (receive_from_twilio_body m s) as [[[]|e] s1]; cbn [snd] in *.
    + exact Hsent.
    + destruct (receive_from_twilio_except_keeps_logs e) as [H1 _].
      rewrite H1. exact Hsent.
  - reflexivity.
  - reflexivity.
  - destruct (receive_from_twilio_body_keeps_sockets m) as [_ Hcaller].
    specialize (Hcaller s). intros Hws.
    destruct (receive_from_twilio_body m s) as [[[]|e] s1]; cbn [snd] in *.
    + congruence.
    + rewrite Hws in Hcaller.
      destruct e; cbn; try assumption.
      destruct (openai_ws_open s1); exact Hcaller.
  - intros _. reflexivity.
  - intros _. reflexivity.
Qed.

Lemma send_to_twilio_body_sockets_closed (m : text) (s : session) :
  openai_ws_open s = false ->
  websocket_open s = false ->
  openai_ws_sent (snd (send_to_twilio_body m s)) = openai_ws_sent s /\
  websocket_sent (snd (send_to_twilio_body m s)) = websocket_sent s.
Proof.
  intros Hmodel Hcaller.
  unfold send_to_twilio_body, handle_speech_started_event, send_mark,
    bind, lift, gets, ret, modify, openai_ws_send, websocket_send_json.
  cbv beta iota zeta. rewrite ?Hmodel, ?Hcaller.
  repeat (break_match; cbv beta iota; run_setters);
    first [ split; reflexivity | congruence ].
Qed.

Lemma gather_step_wound_down (c : call) (ev : event) :
  wound_down c ->
  wound_down (gather_step c ev) /\
  openai_ws_sent (vars (gather_step c ev)) = openai_ws_sent (vars c) /\
  websocket_sent (vars (gather_step c ev)) = websocket_sent (vars c).
Proof.
  intros [Hmodel Hrest]. destruct ev as [item|item]; cbn [gather_step].
  - destruct (receive_from_twilio_status c) eqn:Hrx; [|repeat split; assumption].
    pose proof (receive_from_twilio_next_wound_down item (vars c) Hmodel) as H.
    destruct (receive_from_twilio_next item (vars c)) as [st s1]. cbn [snd vars] in *.
    destruct H as (H1 & H2 & H3 & H4).
    split; [|split; assumption].
    split; [exact H1|]. cbn [vars send_to_twilio_status].
    destruct Hrest as [Hws | Hdone]; [left; now apply H4 | right; exact Hdone].
  - destruct (send_to_twilio_status c) eqn:Htx;
      [|split; [split; [exact Hmodel | right; exact Htx] | split; reflexivity]].
    destruct Hrest as [Hws | Hdone]; [|discriminate].
    destruct item as [m| |]; cbn [send_to_twilio_next vars].
    + destruct (send_to_twilio_body_sockets_closed m (vars c) Hmodel Hws) as [H1 H2].
      destruct (send_to_twilio_body_keeps_caller_state m) as (_ & _ & _ & H3).
      pose proof (send_to_twilio_body_keeps_caller_socket m (vars c)) as H4.
      specialize (H3 (vars c)).
      unfold wound_down.
      destruct (send_to_twilio_body m (vars c)) as [[[]|e] s1];
        cbn [snd vars send_to_twilio_status] in *;
        (split; [split; [congruence | left; congruence] | split; assumption]).
    + repeat split; try assumption. now left.
    + repeat split; try assumption. now left.
Qed.

(** With the caller's socket closed, one model event sends nothing to the
    caller, and to the model nothing, or the truncate command of a barge-in
    whose clear command then fails. *)
Lemma send_to_twilio_body_caller_closed (m : text) (s : session) :
  websocket_open s = false ->
  websocket_sent (snd (send_to_twilio_body m s)) = websocket_sent s /\
  (openai_ws_sent (snd (send_to_twilio_body m s)) = openai_ws_sent s \/
   ((exists e, fst (send_to_twilio_body m s) = Raise e) /\
    exists (item : json) (elapsed_time : Z),
      openai_ws_sent (snd (send_to_twilio_body m s))
      = openai_ws_sent s ++ [truncate_event item elapsed_time])).
Proof.
  intros Hcaller.
  unfold send_to_twilio_body, handle_speech_started_event, send_mark,
    bind, lift, gets, ret, modify, openai_ws_send, websocket_send_json.
  cbv beta iota zeta. rewrite ?Hcaller.
  repeat (break_match; cbv beta iota; run_setters);
    first [ congruence
          | split; [reflexivity | left; reflexivity]
          | split; [reflexivity
                   | right; split; [eexists; reflexivity
                                   | do 2 eexists; reflexivity]] ].
Qed.

Lemma gather_step_hung_up (to_caller to_model : list json) (c : call) (ev : event) :
  hung_up to_caller to_model c -> hung_up to_caller to_model (gather_step c ev).
Proof.
  intros (Hws & Hrx & Hcaller & Hmodel). destruct ev as [item|item]; cbn [gather_step].
  - rewrite Hrx. repeat split; assumption.
  - destruct (send_to_twilio_status c) eqn:Htx;
      [|unfold hung_up; rewrite Htx; repeat split; assumption].
    destruct Hmodel as [Hmodel | [Hdone _]]; [|discriminate].
    destruct item as [m| |]; cbn [send_to_twilio_next].
    + destruct (send_to_twilio_body_caller_closed m (vars c) Hws) as [H1 H2].
      pose proof (send_to_twilio_body_keeps_caller_socket m (vars c)) as H3.
      unfold hung_up.
      destruct (send_to_twilio_body m (vars c)) as [[[]|e] s1];
        cbn [fst snd vars receive_from_twilio_status send_to_twilio_status] in *;
        (split; [congruence|]; split; [assumption|]; split; [congruence|]).
      * destruct H2 as [H2 | [[e He] _]]; [left; congruence | discriminate].
      * destruct H2 as [H2 | [_ (it & el & H2)]]; [left; congruence|].
        right. split; [reflexivity|]. exists it, el. congruence.
    + repeat split; try assumption. now left.
    + repeat split; try assumption. now left.
Qed.

(** X20: what the relay still sends once a connection has ended, whatever
    the two connections deliver afterwards.  After the model's connection
    ends, cleanly or by a transport error, while the outbound pump is
    running, nothing more is sent on either connection.  After the caller
    hangs up while the inbound pump is running, nothing more is sent to the
    caller, and the model is sent nothing more, or exactly one more command,
    the truncate command of a barge-in. *)
Theorem nothing_sent_after_connection_ends (c : call) (evs : list event) :
  (forall ev : event,
     ev = OpenAI Disconnect \/ ev = OpenAI Failure ->
     send_to_twilio_status c = Running ->
     let c1 := gather_step c ev in
     openai_ws_sent (vars (gather evs c1)) = openai_ws_sent (vars c1) /\
     websocket_sent (vars (gather evs c1)) = websocket_sent (vars c1)) /\
  (receive_from_twilio_status c = Running ->
   let c1 := gather_step c (Twilio Disconnect) in
   websocket_sent (vars (gather evs c1)) = websocket_sent (vars c1) /\
   (openai_ws_sent (vars (gather evs c1)) = openai_ws_sent (vars c1) \/
    exists (item : json) (elapsed_time : Z),
      openai_ws_sent (vars (gather evs c1))
      = openai_ws_sent (vars c1) ++ [truncate_event item elapsed_time])).
Proof.
  split.
  - intros ev Hev Htx c1.
    assert (Hdown : wound_down c1).
    { subst c1. destruct Hev as [-> | ->]; cbn [gather_step];
        rewrite Htx; (split; [reflexivity | now right]). }
    clearbody c1. clear Hev Htx. revert c1 Hdown.
    induction evs as [|e evs IH]; intros c1 Hdown; [now split|].
    cbn [gather fold_left].
    destruct (gather_step_wound_down c1 e Hdown) as (Hdown' & H1 & H2).
    destruct (IH _ Hdown') as [H1' H2']. fold (gather evs (gather_step c1 e)).
    split; congruence.
  - intros Hrx c1.
    assert (Hup : hung_up (websocket_sent (vars c1)) (openai_ws_sent (vars c1)) c1).
    { subst c1. cbn [gather_step]. rewrite Hrx. cbn [receive_from_twilio_next].
      repeat split. now left. }
    generalize (websocket_sent (vars c1)) (openai_ws_sent (vars c1)) Hup.
    clear Hup. clearbody c1. clear Hrx. revert c1.
    induction evs as [|e evs IH]; intros c1 to_caller to_model Hup.
    + destruct Hup as (_ & _ & Hcaller & [Hmodel | [_ Hmodel]]);
        (split; [exact Hcaller|]); [now left | now right].
    + cbn [gather fold_left]. fold (gather evs (gather_step c1 e)).
      apply IH. now apply gather_step_hung_up.
Qed.

Lemma nothing_sent_after_connection_ends_witness :
  let c := gather [Twilio (Message (Json (start_frame "MZ18")));
                   Twilio (Message (Json (media_frame "1000" "fn5+")));
                   OpenAI (Message (Json (output_audio_delta "a1" "SGVsbG8=")))]
             (mkCall (initial_session "") Running Running) in
  let after := [OpenAI (Message (Json speech_started));
                OpenAI (Message (Json (output_audio_delta "a1" "fn5+")));
                Twilio (Message (Json (media_frame "1350" "fn5+")))] in
  (let c1 := gather_step c (OpenAI Disconnect) in
   openai_ws_sent (vars (gather after c1)) = openai_ws_sent (vars c1) /\
   websocket_sent (vars (gather after c1)) = websocket_sent (vars c1)) /\
  (let c1 := gather_step c (Twilio Disconnect) in
   websocket_sent (vars (gather after c1)) = websocket_sent (vars c1) /\
   (openai_ws_sent (vars (gather after c1)) = openai_ws_sent (vars c1) \/
    exists (item : json) (elapsed_time : Z),
      openai_ws_sent (vars (gather after c1))
      = openai_ws_sent (vars c1) ++ [truncate_event item elapsed_time])).
Proof.
  split.
  - apply (proj1 (nothing_sent_after_connection_ends
                    (gather [Twilio (Message (Json (start_frame "MZ18")));
                             Twilio (Message (Json (media_frame "1000" "fn5+")));
                             OpenAI (Message (Json (output_audio_delta "a1" "SGVsbG8=")))]
                       (mkCall (initial_session "") Running Running))
                    [OpenAI (Message (Json speech_started));
                     OpenAI (Message (Json (output_audio_delta "a1" "fn5+")));
                     Twilio (Message (Json (media_frame "1350" "fn5+")))])
             (OpenAI Disconnect)).
    + left. reflexivity.
    + vm_compute. reflexivity.
  - apply (proj2 (nothing_sent_after_connection_ends
                    (gather [Twilio (Message (Json (start_frame "MZ18")));
                             Twilio (Message (Json (media_frame "1000" "fn5+")));
                             OpenAI (Message (Json (output_audio_delta "a1" "SGVsbG8=")))]
                       (mkCall (initial_session "") Running Running))
                    [OpenAI (Message (Json speech_started));
                     OpenAI (Message (Json (output_audio_delta "a1" "fn5+")));
                     Twilio (Message (Json (media_frame "1350" "fn5+")))])).
    vm_compute. reflexivity.
Defined.
